(** * ChatKit bootstrap script ([app/static/chatkit.js])

    A shallow embedding of the widget bootstrapper: the page state the
    script reads and writes (document class list, local storage, the five
    looked-up page elements, the module-level [chatkitElement] reference and
    the elements it points to), the environment it observes (the custom
    element registry over time, the backend's reply, the OS colour scheme),
    and the script's functions as computations over that state.

    Console output is not part of the model; every other statement of the
    script is.  Each handler runs to completion before the next one starts. *)

From Stdlib Require Import ZArith Lia Ascii.
From stdpp Require Import base tactics option list strings gmap pretty.

Local Open Scope Z_scope.

(** ** JSON values and the JavaScript operations the script applies to them *)

(** What [response.json()] can produce.  Numbers are the integers whose
    [Number::toString] is their plain decimal form. *)
#[warnings="-register-all"]
Inductive json : Type :=
  | JNull
  | JBool (b : bool)
  | JNum (z : Z)
  | JStr (s : string)
  | JArr (items : list json)
  | JObj (fields : list (string * json)).

(** A JavaScript value as far as the script sees one: [None] is [undefined]. *)
Definition value : Type := option json.

(** An [Error] object: the constructor name and its [message]. *)
Record Error : Type := mkError { error_name : string; message : string }.

(** [ToBoolean]. *)
Definition truthy (v : value) : bool :=
  match v with
  | None => false
  | Some JNull => false
  | Some (JBool b) => b
  | Some (JNum z) => negb (z =? 0)
  | Some (JStr s) => negb (String.eqb s "")
  | Some (JArr _) => true
  | Some (JObj _) => true
  end.

(** [a || b]. *)
Definition js_or (a b : value) : value := if truthy a then a else b.

(** [ToString] on a JSON value; an array is joined with commas, its [null]
    items rendered empty. *)
Fixpoint ToString (v : json) : string :=
  match v with
  | JNull => "null"
  | JBool b => if b then "true" else "false"
  | JNum z => pretty z
  | JStr s => s
  | JArr items =>
      (fix join (l : list json) : string :=
         match l with
         | [] => ""
         | x :: rest =>
             let sx := match x with JNull => "" | _ => ToString x end in
             match rest with
             | [] => sx
             | _ :: _ => sx +:+ "," +:+ join rest
             end
         end) items
  | JObj _ => "[object Object]"
  end.

(** [new Error(m)]: no message for [undefined], [ToString m] otherwise. *)
Definition new_Error (m : value) : Error :=
  mkError "Error" (match m with None => "" | Some v => ToString v end).

(** Own-property lookup in a parsed object. *)
Fixpoint assoc (key : string) (fields : list (string * json)) : value :=
  match fields with
  | [] => None
  | (k, v) :: rest => if String.eqb k key then Some v else assoc key rest
  end.

(** [v.prop] on a value other than [null], for one of the property names
    the script reads ([error], [id], [client_secret]): the own property of
    an object, [undefined] on a boolean, number, string or array. *)
Definition own_prop (v : json) (prop : string) : value :=
  match v with
  | JObj fields => assoc prop fields
  | _ => None
  end.

(** ** The page, the environment and the outgoing request *)

Record Config : Type := mkConfig {
  workflowId : string;
  sessionEndpoint : string;
  placeholder : string;
  greeting : string;
}.

(** [fetch]'s arguments as [createSession] passes them. *)
Record Request : Type := mkRequest {
  url : string;
  method : string;
  headers : list (string * string);
  credentials : string;
  body : string;
}.

(** [response.json()] either resolves to a value or rejects. *)
Inductive JsonResult : Type :=
  | Unparseable (e : Error)
  | Parsed (v : json).

Record Response : Type := mkResponse {
  status : Z;
  json_body : JsonResult;
}.

(** [response.ok]: the status is in the 200-299 range. *)
Definition ok (r : Response) : bool := (200 <=? status r) && (status r <=? 299).

(** [fetch] either rejects (network failure) or resolves to a response. *)
Inductive FetchResult : Type :=
  | Rejected (e : Error)
  | Resolved (r : Response).

(** What the script observes and does not control. *)
Record Env : Type := mkEnv {
  (** whether [customElements.get('openai-chatkit')] is defined at a time *)
  customElements_defined : Z -> bool;
  (** the outcome of a [fetch] *)
  fetch_reply : Request -> FetchResult;
  (** [window.matchMedia('(prefers-color-scheme: dark)').matches] *)
  prefers_dark : bool;
  (** the [TypeError] message for reading a property of [null] *)
  null_read_message : string -> string;
}.

Inductive handler : Type :=
  | H_toggleTheme
  | H_initChatKit
  | H_page (label : string).

#[global] Instance handler_eq_dec : EqDecision handler.
Proof. solve_decision. Defined.

(** The retry control: [style.display] and [onclick]. *)
Record Button : Type := mkButton {
  display : string;
  onclick : option handler;
}.

(** An [openai-chatkit] element: the properties the script assigns. *)
Module Element.
Record t : Type := mk {
  sessionToken : option value;
  placeholder : option string;
  greetingText : option string;
  theme : option string;
}.
Definition created : t := mk None None None None.
End Element.

(** A child of the container: a reference to a created widget element, or
    markup that was there before. *)
Inductive node : Type :=
  | N_chatkit (ref : nat)
  | N_other (markup : string).

Record World : Type := mkWorld {
  (** time units spent in timer waits *)
  clock : Z;
  (** [document.documentElement.classList] *)
  classList : list string;
  localStorage : gmap string string;
  (** the widget elements created so far, by reference *)
  elements : list Element.t;
  (** [let chatkitElement = null] *)
  chatkitElement : option nat;
  (** [chatkitContainer]: absent, or its children *)
  chatkitContainer : option (list node);
  (** [errorOverlay]: absent, or its [style.display] *)
  errorOverlay : option string;
  (** [errorMessage]: absent, or its [textContent] *)
  errorMessage : option string;
  retryButton : option Button;
  (** [themeToggle]: absent, or its click listeners *)
  themeToggle : option (list handler);
  (** the [fetch] calls issued so far, oldest first *)
  requests : list Request;
}.

Definition set_clock (f : Z -> Z) (w : World) : World :=
  mkWorld (f (clock w)) (classList w) (localStorage w) (elements w)
    (chatkitElement w) (chatkitContainer w) (errorOverlay w) (errorMessage w)
    (retryButton w) (themeToggle w) (requests w).

Definition set_classList (f : list string -> list string) (w : World) : World :=
  mkWorld (clock w) (f (classList w)) (localStorage w) (elements w)
    (chatkitElement w) (chatkitContainer w) (errorOverlay w) (errorMessage w)
    (retryButton w) (themeToggle w) (requests w).

Definition set_localStorage (f : gmap string string -> gmap string string)
    (w : World) : World :=
  mkWorld (clock w) (classList w) (f (localStorage w)) (elements w)
    (chatkitElement w) (chatkitContainer w) (errorOverlay w) (errorMessage w)
    (retryButton w) (themeToggle w) (requests w).

Definition set_elements (f : list Element.t -> list Element.t) (w : World) : World :=
  mkWorld (clock w) (classList w) (localStorage w) (f (elements w))
    (chatkitElement w) (chatkitContainer w) (errorOverlay w) (errorMessage w)
    (retryButton w) (themeToggle w) (requests w).

Definition set_chatkitElement (r : option nat) (w : World) : World :=
  mkWorld (clock w) (classList w) (localStorage w) (elements w)
    r (chatkitContainer w) (errorOverlay w) (errorMessage w)
    (retryButton w) (themeToggle w) (requests w).

Definition set_chatkitContainer (f : list node -> list node) (w : World) : World :=
  mkWorld (clock w) (classList w) (localStorage w) (elements w)
    (chatkitElement w) (f <$> chatkitContainer w) (errorOverlay w) (errorMessage w)
    (retryButton w) (themeToggle w) (requests w).

Definition set_errorOverlay (f : string -> string) (w : World) : World :=
  mkWorld (clock w) (classList w) (localStorage w) (elements w)
    (chatkitElement w) (chatkitContainer w) (f <$> errorOverlay w) (errorMessage w)
    (retryButton w) (themeToggle w) (requests w).

Definition set_errorMessage (f : string -> string) (w : World) : World :=
  mkWorld (clock w) (classList w) (localStorage w) (elements w)
    (chatkitElement w) (chatkitContainer w) (errorOverlay w) (f <$> errorMessage w)
    (retryButton w) (themeToggle w) (requests w).

Definition set_retryButton (f : Button -> Button) (w : World) : World :=
  mkWorld (clock w) (classList w) (localStorage w) (elements w)
    (chatkitElement w) (chatkitContainer w) (errorOverlay w) (errorMessage w)
    (f <$> retryButton w) (themeToggle w) (requests w).

Definition set_themeToggle (f : list handler -> list handler) (w : World) : World :=
  mkWorld (clock w) (classList w) (localStorage w) (elements w)
    (chatkitElement w) (chatkitContainer w) (errorOverlay w) (errorMessage w)
    (retryButton w) (f <$> themeToggle w) (requests w).

Definition set_requests (f : list Request -> list Request) (w : World) : World :=
  mkWorld (clock w) (classList w) (localStorage w) (elements w)
    (chatkitElement w) (chatkitContainer w) (errorOverlay w) (errorMessage w)
    (retryButton w) (themeToggle w) (f (requests w)).

(** ** Computations: state, exceptions, and loops that may not end *)

Inductive outcome (A : Type) : Type :=
  | Ret (a : A)
  | Throw (e : Error)
  | Diverge.
Arguments Ret {A} a.
Arguments Throw {A} e.
Arguments Diverge {A}.

Definition M (A : Type) : Type := Env -> World -> outcome A * World.

Definition ret {A : Type} (a : A) : M A := fun _ w => (Ret a, w).

Definition bind {A B : Type} (m : M A) (k : A -> M B) : M B := fun env w =>
  match m env w with
  | (Ret a, w') => k a env w'
  | (Throw e, w') => (Throw e, w')
  | (Diverge, w') => (Diverge, w')
  end.

Notation "'let*' x ':=' m 'in' k" := (bind m (fun x => k))
  (at level 10, x name, m at level 100, k at level 200).
Notation "m ';;' k" := (bind m (fun _ => k))
  (at level 100, k at level 200, right associativity).

Definition throw {A : Type} (e : Error) : M A := fun _ w => (Throw e, w).

(** [try { m } catch (error) { h error }] *)
Definition try_catch {A : Type} (m : M A) (h : Error -> M A) : M A := fun env w =>
  match m env w with
  | (Throw e, w') => h e env w'
  | r => r
  end.

Definition get_world : M World := fun _ w => (Ret w, w).
Definition get_env : M Env := fun env w => (Ret env, w).
Definition modify (f : World -> World) : M unit := fun _ w => (Ret tt, f w).

(** [while (cond) { body }] over the loop's local variables [L]; [fuel]
    bounds the number of condition tests the model follows. *)
Fixpoint while {L : Type} (fuel : nat) (cond : L -> M bool) (body : L -> M L)
    (s : L) : M L :=
  match fuel with
  | O => fun _ w => (Diverge, w)
  | S fuel' =>
      let* c := cond s in
      if c then let* s' := body s in while fuel' cond body s' else ret s
  end.

(** ** [JSON.stringify] on the values above *)

Definition dquote : string := String "034"%char "".

Definition hex_digit (n : N) : ascii :=
  match String.get (N.to_nat n) "0123456789abcdef" with
  | Some c => c
  | None => "0"%char
  end.

(** One character of a quoted JSON string: the short escapes, [\u00xx] for
    the other control characters, anything else as it is. *)
Definition quote_char (c : ascii) : string :=
  let n := N_of_ascii c in
  if (n =? 8)%N then "\b"
  else if (n =? 9)%N then "\t"
  else if (n =? 10)%N then "\n"
  else if (n =? 12)%N then "\f"
  else if (n =? 13)%N then "\r"
  else if (n =? 34)%N then "\" +:+ dquote
  else if (n =? 92)%N then "\\"
  else if (n <? 32)%N then
    "\u00" +:+ String (hex_digit (n / 16)) (String (hex_digit (n mod 16)) "")
  else String c "".

Fixpoint quote_chars (s : string) : string :=
  match s with
  | EmptyString => ""
  | String c rest => quote_char c +:+ quote_chars rest
  end.

Definition quote (s : string) : string := dquote +:+ quote_chars s +:+ dquote.

Fixpoint JSON_stringify (v : json) : string :=
  match v with
  | JNull => "null"
  | JBool b => if b then "true" else "false"
  | JNum z => pretty z
  | JStr s => quote s
  | JArr items =>
      "[" +:+
      (fix join (l : list json) : string :=
         match l with
         | [] => ""
         | x :: rest =>
             match rest with
             | [] => JSON_stringify x
             | _ :: _ => JSON_stringify x +:+ "," +:+ join rest
             end
         end) items +:+ "]"
  | JObj fields =>
      "{" +:+
      (fix join (l : list (string * json)) : string :=
         match l with
         | [] => ""
         | (k, x) :: rest =>
             match rest with
             | [] => quote k +:+ ":" +:+ JSON_stringify x
             | _ :: _ => quote k +:+ ":" +:+ JSON_stringify x +:+ "," +:+ join rest
             end
         end) fields +:+ "}"
  end.

(** ** The script *)

(** [s || fallback] on a possibly missing string attribute. *)
Definition or_default (s : option string) (fallback : string) : string :=
  match s with
  | Some x => if String.eqb x "" then fallback else x
  | None => fallback
  end.

(** [const CONFIG = {...}], from [document.currentScript?.dataset]. *)
Definition load_CONFIG (currentScript : option (gmap string string)) : Config :=
  let data (key : string) : option string := currentScript ≫= (.!! key) in
  {| workflowId := or_default (data "workflowId") "";
     sessionEndpoint := or_default (data "sessionEndpoint") "/api/create-session";
     placeholder := or_default (data "placeholder") "Ask anything...";
     greeting := or_default (data "greeting") "How can I help you today?" |}.

(** [DOMTokenList]: [contains], [add], [toggle]. *)
Definition contains (token : string) (l : list string) : bool :=
  existsb (String.eqb token) l.

Definition add (token : string) (l : list string) : list string :=
  if contains token l then l else l ++ [token].

Definition remove (token : string) (l : list string) : list string :=
  List.filter (fun t => negb (String.eqb token t)) l.

Definition classList_toggle (token : string) : M bool :=
  let* w := get_world in
  if contains token (classList w)
  then modify (set_classList (remove token));; ret false
  else modify (set_classList (fun l => l ++ [token]));; ret true.

(** [v.prop]: a [TypeError] on [null], [own_prop] otherwise. *)
Definition get_prop (v : json) (prop : string) : M value :=
  match v with
  | JNull =>
      let* env := get_env in
      throw (mkError "TypeError" (null_read_message env prop))
  | _ => ret (own_prop v prop)
  end.

(** [await fetch(url, init)] *)
Definition fetch (req : Request) : M Response :=
  modify (set_requests (fun l => l ++ [req]));;
  let* env := get_env in
  match fetch_reply env req with
  | Rejected e => throw e
  | Resolved r => ret r
  end.

(** [await response.json()] *)
Definition response_json (r : Response) : M json :=
  match json_body r with
  | Unparseable e => throw e
  | Parsed v => ret v
  end.

(** [customElements.get('openai-chatkit')], as a boolean. *)
Definition customElements_get : M bool :=
  let* env := get_env in
  let* w := get_world in
  ret (customElements_defined env (clock w)).

(** [await new Promise(resolve => setTimeout(resolve, ms))] *)
Definition sleep (ms : Z) : M unit := modify (set_clock (fun t => t + ms)).

(** [document.createElement('openai-chatkit')] *)
Definition createElement : M nat :=
  let* w := get_world in
  modify (set_elements (fun l => l ++ [Element.created]));;
  ret (length (elements w)).

(** An assignment to a property of the element behind a reference. *)
Definition assign (r : nat) (f : Element.t -> Element.t) : M unit :=
  modify (set_elements (alter f r)).

Definition set_sessionToken (v : value) (e : Element.t) : Element.t :=
  Element.mk (Some v) (Element.placeholder e) (Element.greetingText e) (Element.theme e).
Definition set_placeholder (s : string) (e : Element.t) : Element.t :=
  Element.mk (Element.sessionToken e) (Some s) (Element.greetingText e) (Element.theme e).
Definition set_greetingText (s : string) (e : Element.t) : Element.t :=
  Element.mk (Element.sessionToken e) (Element.placeholder e) (Some s) (Element.theme e).
Definition set_theme (s : string) (e : Element.t) : Element.t :=
  Element.mk (Element.sessionToken e) (Element.placeholder e) (Element.greetingText e) (Some s).

Definition maxAttempts : Z := 50.

Section Script.
Variable CONFIG : Config.

(** [function showError(message, retryable = true)]; a call that leaves
    the second argument out passes [None]. *)
Definition showError (message : string) (retryable : option bool) : M unit :=
  let retryable := default true retryable in
  modify (set_errorMessage (fun _ => message));;
  modify (set_errorOverlay (fun _ => "flex"));;
  if negb retryable
  then modify (set_retryButton (fun b => mkButton "none" (onclick b)))
  else ret tt.

Definition hideError : M unit :=
  modify (set_errorOverlay (fun _ => "none")).

Definition updateChatkitTheme : M unit :=
  let* w := get_world in
  match chatkitElement w with
  | Some r =>
      let isDark := contains "dark" (classList w) in
      assign r (set_theme (if isDark then "dark" else "light"))
  | None => ret tt
  end.

Definition toggleTheme : M unit :=
  let* isDark := classList_toggle "dark" in
  modify (set_localStorage <["theme" := if isDark then "dark" else "light"]>);;
  updateChatkitTheme.

Definition initializeTheme : M unit :=
  let* w := get_world in
  let* env := get_env in
  let saved := localStorage w !! "theme" in
  let prefer := prefers_dark env in
  let isDark :=
    match saved with
    | Some s => if String.eqb s "" then prefer else String.eqb s "dark"
    | None => prefer
    end in
  (if isDark then modify (set_classList (add "dark")) else ret tt);;
  modify (set_themeToggle (fun l =>
    if bool_decide (H_toggleTheme ∈ l) then l else l ++ [H_toggleTheme])).

(** The request [createSession] sends. *)
Definition session_request : Request :=
  {| url := sessionEndpoint CONFIG;
     method := "POST";
     headers := [("Content-Type", "application/json")];
     credentials := "include";
     body := JSON_stringify
       (JObj [("workflow", JObj [("id", JStr (workflowId CONFIG))]);
              ("chatkit_configuration",
               JObj [("file_upload", JObj [("enabled", JBool false)])])]) |}.

Definition createSession : M json :=
  try_catch
    (let* response := fetch session_request in
     (if negb (ok response) then
        let* error := response_json response in
        let* e := get_prop error "error" in
        throw (new_Error (js_or e
          (Some (JStr ("HTTP " +:+ pretty (status response)
                       +:+ ": Failed to create session")))))
      else ret tt);;
     let* session := response_json response in
     let* _ := get_prop session "id" in
     ret session)
    (fun error => throw error).

(** The wait for the component, lines 105-114: the loop's local variable
    is [attempts]. *)
Definition waitForComponent (fuel : nat) : M Z :=
  while fuel
    (fun attempts =>
       let* defined := customElements_get in
       ret (negb defined && (attempts <? maxAttempts)))
    (fun attempts => sleep 100;; ret (attempts + 1))
    0.

Definition initChatKit (fuel : nat) : M unit :=
  try_catch
    (let* attempts := waitForComponent fuel in
     let* defined := customElements_get in
     if negb defined then
       showError "ChatKit component not loaded. Please refresh the page." None
     else
       hideError;;
       let* session := createSession in
       let* r := createElement in
       modify (set_chatkitElement (Some r));;
       let* token := get_prop session "client_secret" in
       assign r (set_sessionToken token);;
       assign r (set_placeholder (placeholder CONFIG));;
       assign r (set_greetingText (greeting CONFIG));;
       let* _ := get_prop session "id" in
       updateChatkitTheme;;
       modify (set_chatkitContainer (fun _ => []));;
       modify (set_chatkitContainer (fun children => children ++ [N_chatkit r])))
    (fun error =>
       showError ("Failed to initialize ChatKit: " +:+ message error) None;;
       modify (set_retryButton (fun b => mkButton (display b) (Some H_initChatKit)))).

(** [window.retryChatKit = initChatKit] *)
Definition retryChatKit : nat -> M unit := initChatKit.

(** The start-up sequence, run at once or on [DOMContentLoaded]. *)
Definition startup (fuel : nat) : M unit :=
  initializeTheme;;
  initChatKit fuel.
End Script.

(** ** Vocabulary of the statements *)

(** The page after [d] more time units of timer waits. *)
Definition advance (d : Z) : World -> World := set_clock (fun t => t + d).

(** The component is registered at one of the moments the wait looks at:
    [k] waits of 100 time units after the start, [k] at most [maxAttempts]. *)
Definition registered_in_time (env : Env) (w : World) : Prop :=
  exists k : Z, 0 <= k <= maxAttempts /\
    customElements_defined env (clock w + 100 * k) = true.

(** The component is registered at none of those moments. *)
Definition never_registered (env : Env) (w : World) : Prop :=
  forall k : Z, 0 <= k <= maxAttempts ->
    customElements_defined env (clock w + 100 * k) = false.

(** The document-level dark flag. *)
Definition dark (w : World) : bool := contains "dark" (classList w).

(** The stored theme preference. *)
Definition stored_theme (w : World) : option string := localStorage w !! "theme".

(** The widget elements among the container's children. *)
Definition is_chatkit (n : node) : bool :=
  match n with N_chatkit _ => true | N_other _ => false end.

Definition mounted_widgets (w : World) : nat :=
  match chatkitContainer w with
  | Some children => length (List.filter is_chatkit children)
  | None => 0
  end.

(** What can happen to the page after start-up: a click on the theme toggle,
    or a call of the restart entry point; each under the environment of its
    moment. *)
Inductive event : Type :=
  | E_toggleTheme
  | E_retryChatKit.

Definition handle (CONFIG : Config) (fuel : nat) (ev : event) : M unit :=
  match ev with
  | E_toggleTheme => toggleTheme
  | E_retryChatKit => retryChatKit CONFIG fuel
  end.

Definition handle_all (CONFIG : Config) (fuel : nat)
    (trace : list (event * Env)) (w : World) : World :=
  foldl (fun w step => (handle CONFIG fuel step.1 step.2 w).2) w trace.

(** The page after [n] clicks on the theme toggle. *)
Definition toggles (n : nat) (env : Env) (w : World) : World :=
  Nat.iter n (fun w => (toggleTheme env w).2) w.

(** The stored preference that goes with a value of the dark flag. *)
Definition theme_of (flag : bool) : string := if flag then "dark" else "light".

(** ** Sample pages and environments *)

(** The message V8 gives a read of a property of [null]. *)
Definition v8_null_read (prop : string) : string :=
  "Cannot read properties of null (reading '" +:+ prop +:+ "')".

Definition sample_config : Config :=
  mkConfig "wf_42" "/api/create-session" "Ask anything..." "How can I help you today?".

(** A freshly loaded page: a loading note in the container, the overlay
    hidden, the retry control visible and unarmed. *)
Definition sample_page : World :=
  mkWorld 0 [] ∅ [] None (Some [N_other "Loading chat..."]) (Some "none")
    (Some "") (Some (mkButton "" None)) (Some [H_toggleTheme]) [].

(** The component never registers. *)
Definition env_never : Env :=
  mkEnv (fun _ => false)
    (fun _ => Rejected (mkError "TypeError" "Failed to fetch")) false v8_null_read.

(** The component registers at time [ready_at]; the backend gives [reply]. *)
Definition env_with (ready_at : Z) (reply : FetchResult) : Env :=
  mkEnv (fun t => ready_at <=? t) (fun _ => reply) false v8_null_read.

Definition reply_error_X : FetchResult :=
  Resolved (mkResponse 500 (Parsed (JObj [("error", JStr "X")]))).

Definition reply_empty_error : FetchResult :=
  Resolved (mkResponse 500 (Parsed (JObj [("error", JStr "")]))).

Definition reply_no_error_field : FetchResult :=
  Resolved (mkResponse 503 (Parsed (JObj [("detail", JStr "unavailable")]))).

Definition reply_not_json : FetchResult :=
  Resolved (mkResponse 502
    (Unparseable (mkError "SyntaxError" "Unexpected token '<'"))).

Definition sample_session : json :=
  JObj [("id", JStr "cksess_1"); ("client_secret", JStr "ek_secret_9")].

Definition reply_session : FetchResult :=
  Resolved (mkResponse 200 (Parsed sample_session)).

(** A first visit under a light OS scheme, after [initializeTheme]: nothing
    is stored and the dark flag is not set. *)
Definition first_visit : World :=
  (initializeTheme env_never
     (mkWorld 0 [] ∅ [] None (Some [N_other "Loading chat..."]) (Some "none")
        (Some "") (Some (mkButton "" None)) (Some []) [])).2.

(** ** Vocabulary of the further properties *)

(** A computation leaves a part [proj] of the page as it found it. *)
Definition frame {A B : Type} (proj : World -> B) (m : M A) : Prop :=
  forall env w, proj (m env w).2 = proj w.

(** The element behind [chatkitElement], when there is one, has the theme
    that goes with the document's dark flag. *)
Definition theme_synced (w : World) : Prop :=
  forall r el,
    chatkitElement w = Some r -> elements w !! r = Some el ->
    Element.theme el = Some (theme_of (dark w)).

(** A page with none of the five looked-up elements. *)
Definition bare_page : World :=
  mkWorld 0 [] ∅ [] None None None None None None [].

(** A returning visitor who chose the dark theme, under a light OS scheme. *)
Definition returning_dark_page : World :=
  mkWorld 0 [] {["theme" := "dark"]} [] None (Some [N_other "Loading chat..."])
    (Some "none") (Some "") (Some (mkButton "" None)) (Some []) [].

(** The component registers at time [ready_at]; the OS prefers dark. *)
Definition env_os_dark (ready_at : Z) (reply : FetchResult) : Env :=
  mkEnv (fun t => ready_at <=? t) (fun _ => reply) true v8_null_read.

(** The [data-*] attributes of a script tag that sets a workflow and leaves
    the greeting empty. *)
Definition sample_dataset : gmap string string :=
  {["workflowId" := "wf_42"; "greeting" := ""]}.

(** Decides the comparisons of string literals in the goal. *)
Ltac eqb_literals :=
  repeat match goal with
  | |- context [String.eqb ?a ?b] =>
      let v := eval vm_compute in (String.eqb a b) in
      lazymatch v with
      | true => change (String.eqb a b) with true
      | false => change (String.eqb a b) with false
      end
  end.

(** ** Proof tactics *)

(** Unfolds [createSession] down to the case analysis on the reply. *)
Ltac run_createSession :=
  cbv [createSession try_catch bind ret throw fetch modify get_env get_world
       response_json get_prop].

(** Computes the record updates and projections of a page given by its
    constructor. *)
Ltac setters :=
  cbv [set_clock set_classList set_localStorage set_elements set_chatkitElement
       set_chatkitContainer set_errorOverlay set_errorMessage set_retryButton
       set_themeToggle set_requests advance
       clock classList localStorage elements chatkitElement chatkitContainer
       errorOverlay errorMessage retryButton themeToggle requests].

(** ** Running computations *)

Lemma bind_Ret {A B} (m : M A) (k : A -> M B) env w a w' :
  m env w = (Ret a, w') -> bind m k env w = k a env w'.
Proof. unfold bind. intros ->. reflexivity. Qed.

Lemma bind_Throw {A B} (m : M A) (k : A -> M B) env w e w' :
  m env w = (Throw e, w') -> bind m k env w = (Throw e, w').
Proof. unfold bind. intros ->. reflexivity. Qed.

Lemma try_catch_Ret {A} (m : M A) h env w a w' :
  m env w = (Ret a, w') -> try_catch m h env w = (Ret a, w').
Proof. unfold try_catch. intros ->. reflexivity. Qed.

Lemma try_catch_Throw {A} (m : M A) h env w e w' :
  m env w = (Throw e, w') -> try_catch m h env w = h e env w'.
Proof. unfold try_catch. intros ->. reflexivity. Qed.

Lemma advance_0 w : advance 0 w = w.
Proof. destruct w; unfold advance, set_clock; simpl. f_equal. lia. Qed.

Lemma advance_advance a b w : advance a (advance b w) = advance (b + a) w.
Proof. unfold advance, set_clock; simpl. f_equal. lia. Qed.

Lemma clock_advance d w : clock (advance d w) = clock w + d.
Proof. reflexivity. Qed.

(** ** The wait for the component *)

Lemma wait_loop env : forall (fuel : nat) (a : Z) (w : World),
  0 <= a <= maxAttempts -> (Z.to_nat (maxAttempts - a) < fuel)%nat ->
  exists n : Z,
    0 <= n <= maxAttempts - a /\
    while fuel
      (fun attempts =>
         let* defined := customElements_get in
         ret (negb defined && (attempts <? maxAttempts)))
      (fun attempts => sleep 100;; ret (attempts + 1))
      a env w = (Ret (a + n), advance (100 * n) w) /\
    (forall k, 0 <= k < n -> customElements_defined env (clock w + 100 * k) = false) /\
    (customElements_defined env (clock w + 100 * n) = true \/ a + n = maxAttempts).
Proof.
  induction fuel as [|fuel IH]; intros a w Ha Hfuel; [lia|].
  cbn [while].
  erewrite bind_Ret; [|reflexivity].
  destruct (customElements_defined env (clock w)) eqn:Hd; cbn [negb andb].
  - exists 0. rewrite Z.add_0_r, Z.mul_0_r, advance_0, Z.add_0_r.
    repeat split; try (unfold maxAttempts in *; lia). left; done.
  - destruct (a <? maxAttempts) eqn:Hlt.
    + apply Z.ltb_lt in Hlt.
      rewrite (bind_Ret _ _ env w (a + 1) (advance 100 w)) by reflexivity.
      destruct (IH (a + 1) (advance 100 w)) as (n & Hn & Heq & Hnot & Hex);
        [lia | unfold maxAttempts in *; lia |].
      exists (n + 1). split; [lia|]. split; [|split].
      * etrans; [exact Heq|]. f_equal; [f_equal; lia|].
        rewrite advance_advance. f_equal. lia.
      * intros k Hk. destruct (decide (k = 0)) as [->|Hne].
        { rewrite Z.mul_0_r, Z.add_0_r. done. }
        specialize (Hnot (k - 1)). rewrite clock_advance in Hnot.
        replace (clock w + 100 * k) with (clock w + 100 + 100 * (k - 1)) by lia.
        apply Hnot. lia.
      * rewrite clock_advance in Hex.
        replace (clock w + 100 * (n + 1)) with (clock w + 100 + 100 * n) by lia.
        destruct Hex; [left; done | right; lia].
    + apply Z.ltb_ge in Hlt. exists 0.
      rewrite Z.add_0_r, Z.mul_0_r, advance_0.
      repeat split; lia.
Qed.

Lemma wait_spec env (fuel : nat) (w : World) :
  (50 < fuel)%nat ->
  exists n : Z,
    0 <= n <= maxAttempts /\
    waitForComponent fuel env w = (Ret n, advance (100 * n) w) /\
    (forall k, 0 <= k < n -> customElements_defined env (clock w + 100 * k) = false) /\
    (customElements_defined env (clock w + 100 * n) = true \/ n = maxAttempts).
Proof.
  intros Hfuel. unfold waitForComponent.
  destruct (wait_loop env fuel 0 w) as (n & Hn & Heq & Hnot & Hex).
  - unfold maxAttempts; lia.
  - unfold maxAttempts; simpl; lia.
  - exists n. rewrite Z.add_0_l in Heq, Hex. rewrite Z.sub_0_r in Hn. done.
Qed.

Lemma wait_found env (fuel : nat) (w : World) :
  (50 < fuel)%nat -> registered_in_time env w ->
  exists n : Z,
    0 <= n <= maxAttempts /\
    waitForComponent fuel env w = (Ret n, advance (100 * n) w) /\
    customElements_defined env (clock w + 100 * n) = true.
Proof.
  intros Hfuel (k & Hk & Hdef).
  destruct (wait_spec env fuel w Hfuel) as (n & Hn & Heq & Hnot & Hex).
  exists n. split; [done|]. split; [done|].
  destruct Hex as [Hex| ->]; [done|].
  destruct (decide (k = maxAttempts)) as [->|Hne]; [done|].
  rewrite Hnot in Hdef by lia. done.
Qed.

Lemma wait_timeout env (fuel : nat) (w : World) :
  (50 < fuel)%nat -> never_registered env w ->
  waitForComponent fuel env w = (Ret maxAttempts, advance 5000 w).
Proof.
  intros Hfuel Hnever.
  destruct (wait_spec env fuel w Hfuel) as (n & Hn & Heq & Hnot & Hex).
  destruct Hex as [Hex| ->]; [|done].
  rewrite Hnever in Hex by done. done.
Qed.

(** ** Session creation *)

(** The page after [createSession]: one more request on the log, whatever
    the outcome. *)
Lemma createSession_world cfg env w :
  (createSession cfg env w).2 =
  set_requests (fun l => l ++ [session_request cfg]) w.
Proof.
  run_createSession.
  destruct (fetch_reply env (session_request cfg)) as [e|r]; [reflexivity|].
  destruct (ok r); cbn [negb];
    destruct (json_body r) as [e|v]; try reflexivity;
    destruct v; reflexivity.
Qed.

(** The outcome of [createSession] is decided by the reply alone. *)
Lemma createSession_outcome cfg env w w' :
  (createSession cfg env w).1 = (createSession cfg env w').1.
Proof.
  run_createSession.
  destruct (fetch_reply env (session_request cfg)) as [e|r]; [reflexivity|].
  destruct (ok r); cbn [negb];
    destruct (json_body r) as [e|v]; try reflexivity;
    destruct v; reflexivity.
Qed.

Lemma createSession_run cfg env w w' :
  createSession cfg env w =
  ((createSession cfg env w').1,
   set_requests (fun l => l ++ [session_request cfg]) w).
Proof.
  rewrite <- (createSession_world cfg env w),
    (createSession_outcome cfg env w' w).
  destruct (createSession cfg env w); reflexivity.
Qed.

(** A session that [createSession] returns is not [null]. *)
Lemma createSession_not_null cfg env w session :
  (createSession cfg env w).1 = Ret session -> session <> JNull.
Proof.
  run_createSession.
  destruct (fetch_reply env (session_request cfg)) as [e|r]; [discriminate|].
  destruct (ok r); cbn [negb];
    destruct (json_body r) as [e|v]; try discriminate;
    destruct v; cbn; congruence.
Qed.

Lemma get_prop_run v prop env w :
  v <> JNull -> get_prop v prop env w = (Ret (own_prop v prop), w).
Proof. destruct v; [congruence | reflexivity..]. Qed.

(** What a non-success reply makes [createSession] throw. *)
Lemma createSession_not_ok cfg env w r :
  fetch_reply env (session_request cfg) = Resolved r ->
  ok r = false ->
  (createSession cfg env w).1 =
  match json_body r with
  | Unparseable e => Throw e
  | Parsed JNull => Throw (mkError "TypeError" (null_read_message env "error"))
  | Parsed v =>
      Throw (new_Error (js_or (own_prop v "error")
        (Some (JStr ("HTTP " +:+ pretty (status r)
                     +:+ ": Failed to create session")))))
  end.
Proof.
  intros Hreply Hok. run_createSession. rewrite Hreply, Hok. cbn [negb].
  destruct (json_body r) as [e|v]; [reflexivity|].
  destruct v; reflexivity.
Qed.

(** ** The initialization entry point, path by path *)

(** The component never shows up: an error is shown and nothing else
    happens. *)
Lemma initChatKit_timeout cfg env (fuel : nat) w :
  (50 < fuel)%nat -> never_registered env w ->
  initChatKit cfg fuel env w =
  (Ret tt,
   mkWorld (clock w + 5000) (classList w) (localStorage w) (elements w)
     (chatkitElement w) (chatkitContainer w)
     ((fun _ => "flex") <$> errorOverlay w)
     ((fun _ => "ChatKit component not loaded. Please refresh the page.")
        <$> errorMessage w)
     (retryButton w) (themeToggle w) (requests w)).
Proof.
  intros Hfuel Hnever. unfold initChatKit.
  apply try_catch_Ret.
  rewrite (bind_Ret _ _ _ _ _ _ (wait_timeout env fuel w Hfuel Hnever)).
  rewrite (bind_Ret _ _ _ _ false (advance 5000 w)).
  2:{ unfold customElements_get. cbv [bind get_env get_world ret].
      rewrite clock_advance.
      rewrite <- (Hnever maxAttempts) by (unfold maxAttempts; lia). reflexivity. }
  clear Hnever.
  destruct w; cbn [negb]; cbv [showError default bind modify ret negb]; setters;
    reflexivity.
Qed.

Lemma alter_fresh {A} (f : A -> A) (l : list A) (x : A) :
  alter f (length l) (l ++ [x]) = l ++ [f x].
Proof.
  rewrite <- (Nat.add_0_r (length l)) at 1. rewrite alter_app_r. reflexivity.
Qed.

(** The part of [initChatKit] up to and including [createSession], when the
    component is found: the wait ends after [n] rounds, a shown error is
    hidden, the request goes out. *)
Lemma customElements_get_found env n w :
  customElements_defined env (clock w + 100 * n) = true ->
  customElements_get env (advance (100 * n) w) = (Ret true, advance (100 * n) w).
Proof.
  intros Hdef. unfold customElements_get. cbv [bind get_env get_world ret].
  rewrite clock_advance, Hdef. reflexivity.
Qed.

(** Session creation fails: the failure's message is shown behind a fixed
    prefix, the retry control is armed, nothing is mounted. *)
Lemma initChatKit_session_error cfg env (fuel : nat) w e :
  (50 < fuel)%nat -> registered_in_time env w ->
  (createSession cfg env w).1 = Throw e ->
  exists n : Z, 0 <= n <= maxAttempts /\
  initChatKit cfg fuel env w =
  (Ret tt,
   mkWorld (clock w + 100 * n) (classList w) (localStorage w) (elements w)
     (chatkitElement w) (chatkitContainer w)
     ((fun _ => "flex") <$> errorOverlay w)
     ((fun _ => "Failed to initialize ChatKit: " +:+ message e) <$> errorMessage w)
     ((fun b => mkButton (display b) (Some H_initChatKit)) <$> retryButton w)
     (themeToggle w) (requests w ++ [session_request cfg])).
Proof.
  intros Hfuel Hreg Hthrow.
  destruct (wait_found env fuel w Hfuel Hreg) as (n & Hn & Hwait & Hdef).
  exists n. split; [done|]. unfold initChatKit.
  erewrite try_catch_Throw.
  2:{ rewrite (bind_Ret _ _ _ _ _ _ Hwait).
      rewrite (bind_Ret _ _ _ _ _ _ (customElements_get_found env n w Hdef)).
      cbn [negb].
      erewrite bind_Ret; [|reflexivity].
      apply bind_Throw.
      rewrite (createSession_run cfg env _ w), Hthrow. reflexivity. }
  clear Hwait Hdef Hthrow Hreg.
  destruct w as [? ? ? ? ? ? [ov|] ? ? ? ?];
    cbv [showError hideError default bind modify ret negb]; setters; reflexivity.
Qed.

Lemma modify_run f env w : modify f env w = (Ret tt, f w).
Proof. reflexivity. Qed.

Lemma hideError_run env w :
  hideError env w = (Ret tt, set_errorOverlay (fun _ => "none") w).
Proof. reflexivity. Qed.

Lemma createElement_run env w :
  createElement env w =
  (Ret (length (elements w)), set_elements (fun l => l ++ [Element.created]) w).
Proof. reflexivity. Qed.

Lemma assign_run r f env w :
  assign r f env w = (Ret tt, set_elements (alter f r) w).
Proof. reflexivity. Qed.

Lemma updateChatkitTheme_run env w r :
  chatkitElement w = Some r ->
  updateChatkitTheme env w =
  (Ret tt,
   set_elements
     (alter (set_theme (if contains "dark" (classList w) then "dark" else "light")) r) w).
Proof.
  intros Hr. unfold updateChatkitTheme.
  rewrite (bind_Ret _ _ env w w w) by reflexivity. rewrite Hr. reflexivity.
Qed.

(** Session creation succeeds: a new element is created, configured and
    mounted as the container's only child. *)
Lemma initChatKit_mounted cfg env (fuel : nat) w session :
  (50 < fuel)%nat -> registered_in_time env w ->
  (createSession cfg env w).1 = Ret session ->
  exists n : Z, 0 <= n <= maxAttempts /\
  initChatKit cfg fuel env w =
  (Ret tt,
   mkWorld (clock w + 100 * n) (classList w) (localStorage w)
     (elements w ++
        [Element.mk (Some (own_prop session "client_secret"))
           (Some (placeholder cfg)) (Some (greeting cfg))
           (Some (if contains "dark" (classList w) then "dark" else "light"))])
     (Some (length (elements w)))
     ((fun _ => [N_chatkit (length (elements w))]) <$> chatkitContainer w)
     ((fun _ => "none") <$> errorOverlay w)
     (errorMessage w) (retryButton w) (themeToggle w)
     (requests w ++ [session_request cfg])).
Proof.
  intros Hfuel Hreg Hret.
  pose proof (createSession_not_null _ _ _ _ Hret) as Hnn.
  destruct (wait_found env fuel w Hfuel Hreg) as (n & Hn & Hwait & Hdef).
  exists n. split; [done|]. unfold initChatKit.
  apply try_catch_Ret.
  rewrite (bind_Ret _ _ _ _ _ _ Hwait).
  rewrite (bind_Ret _ _ _ _ _ _ (customElements_get_found env n w Hdef)).
  cbn [negb].
  rewrite (bind_Ret _ _ _ _ _ _ (hideError_run _ _)).
  erewrite bind_Ret; [|rewrite (createSession_run cfg env _ w), Hret; reflexivity].
  rewrite (bind_Ret _ _ _ _ _ _ (createElement_run _ _)).
  rewrite (bind_Ret _ _ _ _ _ _ (modify_run _ _ _)).
  rewrite (bind_Ret _ _ _ _ _ _ (get_prop_run _ _ _ _ Hnn)).
  rewrite (bind_Ret _ _ _ _ _ _ (assign_run _ _ _ _)).
  rewrite (bind_Ret _ _ _ _ _ _ (assign_run _ _ _ _)).
  rewrite (bind_Ret _ _ _ _ _ _ (assign_run _ _ _ _)).
  rewrite (bind_Ret _ _ _ _ _ _ (get_prop_run _ _ _ _ Hnn)).
  erewrite bind_Ret; [|apply updateChatkitTheme_run; reflexivity].
  rewrite (bind_Ret _ _ _ _ _ _ (modify_run _ _ _)).
  rewrite modify_run.
  clear Hwait Hdef Hret Hreg.
  destruct w as [? ? ? els ? [c|] [ov|] ? ? ? ?]; setters;
    rewrite !alter_fresh; reflexivity.
Qed.

Lemma createSession_total cfg env w : (createSession cfg env w).1 <> Diverge.
Proof.
  run_createSession.
  destruct (fetch_reply env (session_request cfg)) as [e|r]; [discriminate|].
  destruct (ok r); cbn [negb];
    destruct (json_body r) as [e|v]; try discriminate;
    destruct v; cbn; try discriminate; destruct (truthy _); discriminate.
Qed.

Lemma registered_or_never env w :
  registered_in_time env w \/ never_registered env w.
Proof.
  destruct (wait_spec env 51 w) as (n & Hn & _ & Hnot & Hex); [lia|].
  destruct Hex as [Hex| ->]; [left; exists n; done|].
  destruct (customElements_defined env (clock w + 100 * maxAttempts)) eqn:Hlast.
  - left. exists maxAttempts. unfold maxAttempts in *. split; [lia|done].
  - right. intros k Hk. destruct (decide (k = maxAttempts)) as [->|Hne]; [done|].
    apply Hnot. lia.
Qed.

(** Every run of [initChatKit] takes one of the three paths. *)
Lemma initChatKit_paths cfg env w :
  (never_registered env w) \/
  (registered_in_time env w /\ exists e, (createSession cfg env w).1 = Throw e) \/
  (registered_in_time env w /\ exists s, (createSession cfg env w).1 = Ret s).
Proof.
  destruct (registered_or_never env w) as [Hreg|Hnever]; [|by left].
  right. destruct (createSession cfg env w).1 as [s|e|] eqn:Hcs.
  - right. eauto.
  - left. eauto.
  - by destruct (createSession_total cfg env w).
Qed.

(** [initChatKit] catches every failure: it always returns. *)
Lemma initChatKit_returns cfg env (fuel : nat) w :
  (50 < fuel)%nat -> (initChatKit cfg fuel env w).1 = Ret tt.
Proof.
  intros Hfuel.
  destruct (initChatKit_paths cfg env w)
    as [Hnever|[[Hreg [e He]]|[Hreg [s Hs]]]].
  - rewrite initChatKit_timeout by done. reflexivity.
  - destruct (initChatKit_session_error cfg env fuel w e) as (n & _ & ->); done.
  - destruct (initChatKit_mounted cfg env fuel w s) as (n & _ & ->); done.
Qed.

(** ** The theme toggle *)

Lemma contains_remove token l : contains token (remove token l) = false.
Proof.
  unfold contains, remove. induction l as [|t l IH]; [reflexivity|].
  cbn [List.filter]. destruct (String.eqb token t) eqn:Heq; cbn [negb]; [exact IH|].
  cbn [existsb]. rewrite Heq, IH. reflexivity.
Qed.

Lemma contains_snoc token l : contains token (l ++ [token]) = true.
Proof.
  unfold contains. rewrite existsb_app. cbn [existsb].
  rewrite String.eqb_refl. apply orb_true_iff. right. reflexivity.
Qed.

(** The page after a click on the theme toggle. *)
Lemma toggleTheme_run env w :
  toggleTheme env w =
  (Ret tt,
   mkWorld (clock w)
     (if dark w then remove "dark" (classList w) else classList w ++ ["dark"])
     (<["theme" := if dark w then "light" else "dark"]> (localStorage w))
     (match chatkitElement w with
      | Some r => alter (set_theme (if dark w then "light" else "dark")) r (elements w)
      | None => elements w
      end)
     (chatkitElement w) (chatkitContainer w) (errorOverlay w) (errorMessage w)
     (retryButton w) (themeToggle w) (requests w)).
Proof.
  unfold toggleTheme, classList_toggle, updateChatkitTheme, dark.
  destruct w as [? cl ? ? [r|] ? ? ? ? ? ?];
    cbv [bind get_world modify ret assign]; setters;
    destruct (contains "dark" cl) eqn:Hc; setters;
    rewrite ?contains_remove, ?contains_snoc; reflexivity.
Qed.

Lemma dark_toggleTheme env w : dark (toggleTheme env w).2 = negb (dark w).
Proof.
  rewrite toggleTheme_run. unfold dark at 1. cbn [snd classList].
  destruct (dark w); cbn [negb]; [apply contains_remove | apply contains_snoc].
Qed.

Lemma stored_theme_toggleTheme env w :
  stored_theme (toggleTheme env w).2 = Some (if dark w then "light" else "dark").
Proof.
  rewrite toggleTheme_run. unfold stored_theme. cbn [snd localStorage].
  apply lookup_insert_eq.
Qed.

Lemma chatkitContainer_toggleTheme env w :
  chatkitContainer (toggleTheme env w).2 = chatkitContainer w.
Proof. rewrite toggleTheme_run. reflexivity. Qed.

Lemma initChatKit_container cfg env (fuel : nat) w :
  (50 < fuel)%nat ->
  chatkitContainer (initChatKit cfg fuel env w).2 = chatkitContainer w \/
  chatkitContainer (initChatKit cfg fuel env w).2 = Some [N_chatkit (length (elements w))].
Proof.
  intros Hfuel.
  destruct (initChatKit_paths cfg env w) as [Hnever|[[Hreg [e He]]|[Hreg [s Hs]]]].
  - rewrite initChatKit_timeout by done. by left.
  - destruct (initChatKit_session_error cfg env fuel w e) as (n & _ & ->); try done.
    by left.
  - destruct (initChatKit_mounted cfg env fuel w s) as (n & _ & ->); try done.
    cbn [snd chatkitContainer]. destruct (chatkitContainer w); [by right | by left].
Qed.

Lemma handle_mounted_widgets cfg (fuel : nat) ev env w :
  (50 < fuel)%nat -> (mounted_widgets w <= 1)%nat ->
  (mounted_widgets (handle cfg fuel ev env w).2 <= 1)%nat.
Proof.
  intros Hfuel Hw. destruct ev; cbn [handle].
  - unfold mounted_widgets in *. rewrite chatkitContainer_toggleTheme. exact Hw.
  - unfold retryChatKit, mounted_widgets in *.
    destruct (initChatKit_container cfg env fuel w Hfuel) as [-> | ->];
      [exact Hw | cbn; lia].
Qed.

(** The body text for the sample configuration. *)
Example session_request_body_sample :
  body (session_request sample_config) =
  "{" +:+ quote "workflow" +:+ ":{" +:+ quote "id" +:+ ":" +:+ quote "wf_42" +:+ "},"
  +:+ quote "chatkit_configuration" +:+ ":{" +:+ quote "file_upload" +:+ ":{"
  +:+ quote "enabled" +:+ ":false}}}".
Proof. vm_compute. reflexivity. Qed.

Lemma toggles_S env (n : nat) (w : World) :
  toggles (S n) env w = (toggleTheme env (toggles n env w)).2.
Proof. reflexivity. Qed.

Lemma toggles_even env (n : nat) (w : World) :
  dark (toggles (2 * S n) env w) = dark w /\
  stored_theme (toggles (2 * S n) env w) = Some (theme_of (dark w)).
Proof.
  induction n as [|n [IHd IHs]].
  - change (2 * 1)%nat with 2%nat. rewrite !toggles_S. change (toggles 0 env w) with w.
    split.
    + rewrite !dark_toggleTheme. apply negb_involutive.
    + rewrite stored_theme_toggleTheme, dark_toggleTheme.
      unfold theme_of. destruct (dark w); reflexivity.
  - replace (2 * S (S n))%nat with (S (S (2 * S n))) by lia.
    rewrite !toggles_S. split.
    + rewrite !dark_toggleTheme, negb_involutive. exact IHd.
    + rewrite stored_theme_toggleTheme, dark_toggleTheme, IHd.
      unfold theme_of. destruct (dark w); reflexivity.
Qed.

(** [showError] hides the retry control when it is passed
    [retryable = false]; no call in the script does. *)
Lemma showError_not_retryable_hides message env w :
  retryButton (showError message (Some false) env w).2 =
  (fun b => mkButton "none" (onclick b)) <$> retryButton w.
Proof. reflexivity. Qed.

Lemma showError_default_keeps_retry message env w :
  retryButton (showError message None env w).2 = retryButton w.
Proof. reflexivity. Qed.

(** Every attribute missing from the page gets its default. *)
Example load_CONFIG_defaults :
  load_CONFIG None =
  mkConfig "" "/api/create-session" "Ask anything..." "How can I help you today?".
Proof. reflexivity. Qed.

(** ** The claims *)

(** C1 (what the code does). When the component is still unregistered
    after the wait, the error is shown through [showError] with its default
    [retryable = true]: message and overlay are set, the retry control is
    left exactly as it was (not hidden), and nothing else on the page
    changes. *)
Theorem C1_timeout_error_leaves_retry_control cfg env (fuel : nat) (w : World) :
  (50 < fuel)%nat -> never_registered env w ->
  (initChatKit cfg fuel env w).1 = Ret tt /\
  errorMessage (initChatKit cfg fuel env w).2 =
    (fun _ => "ChatKit component not loaded. Please refresh the page.")
      <$> errorMessage w /\
  errorOverlay (initChatKit cfg fuel env w).2 = (fun _ => "flex") <$> errorOverlay w /\
  retryButton (initChatKit cfg fuel env w).2 = retryButton w /\
  requests (initChatKit cfg fuel env w).2 = requests w /\
  chatkitContainer (initChatKit cfg fuel env w).2 = chatkitContainer w /\
  elements (initChatKit cfg fuel env w).2 = elements w /\
  chatkitElement (initChatKit cfg fuel env w).2 = chatkitElement w.
Proof.
  intros Hfuel Hnever. rewrite initChatKit_timeout by done. done.
Qed.

Lemma C1_timeout_error_leaves_retry_control_witness :
  (50 < 51)%nat /\ never_registered env_never sample_page /\
  errorMessage (initChatKit sample_config 51 env_never sample_page).2 =
    Some "ChatKit component not loaded. Please refresh the page." /\
  retryButton (initChatKit sample_config 51 env_never sample_page).2 =
    Some (mkButton "" None).
Proof.
  split; [lia|]. split; [intros k _; reflexivity|].
  destruct (C1_timeout_error_leaves_retry_control sample_config env_never 51
              sample_page) as (_ & Hmsg & _ & Hretry & _);
    [lia | intros k _; reflexivity |].
  split; [exact Hmsg | exact Hretry].
Defined.

(** C2 (as the code has it). On a non-success reply the user is shown the
    failure's message behind the prefix "Failed to initialize ChatKit: ":
    the body's [error] field when that is a non-empty string, "HTTP <status>:
    Failed to create session" when the body is an object without an [error]
    field, and the parser's own message when the body is not JSON. *)
Theorem C2_shown_message_on_failed_reply cfg env (fuel : nat) (w : World) (r : Response) :
  (50 < fuel)%nat -> registered_in_time env w ->
  fetch_reply env (session_request cfg) = Resolved r -> ok r = false ->
  (forall fields X,
     json_body r = Parsed (JObj fields) -> assoc "error" fields = Some (JStr X) ->
     X <> "" ->
     (createSession cfg env w).1 = Throw (mkError "Error" X) /\
     errorMessage (initChatKit cfg fuel env w).2 =
       (fun _ => "Failed to initialize ChatKit: " +:+ X) <$> errorMessage w) /\
  (forall fields,
     json_body r = Parsed (JObj fields) -> assoc "error" fields = None ->
     (createSession cfg env w).1 =
       Throw (mkError "Error"
                ("HTTP " +:+ pretty (status r) +:+ ": Failed to create session")) /\
     errorMessage (initChatKit cfg fuel env w).2 =
       (fun _ => "Failed to initialize ChatKit: " +:+
                 "HTTP " +:+ pretty (status r) +:+ ": Failed to create session")
         <$> errorMessage w) /\
  (forall e,
     json_body r = Unparseable e ->
     (createSession cfg env w).1 = Throw e /\
     errorMessage (initChatKit cfg fuel env w).2 =
       (fun _ => "Failed to initialize ChatKit: " +:+ message e) <$> errorMessage w).
Proof.
  intros Hfuel Hreg Hreply Hok.
  pose proof (createSession_not_ok cfg env w r Hreply Hok) as Hcs.
  assert (Hshown : forall e, (createSession cfg env w).1 = Throw e ->
            errorMessage (initChatKit cfg fuel env w).2 =
            (fun _ => "Failed to initialize ChatKit: " +:+ message e) <$> errorMessage w).
  { intros e He.
    destruct (initChatKit_session_error cfg env fuel w e Hfuel Hreg He) as (n & _ & ->).
    reflexivity. }
  split; [|split].
  - intros fields X Hbody Herr HX. rewrite Hbody in Hcs. cbn [own_prop] in Hcs.
    rewrite Herr in Hcs. unfold js_or, truthy in Hcs.
    apply String.eqb_neq in HX. rewrite HX in Hcs. cbn [negb] in Hcs.
    split; [exact Hcs | exact (Hshown _ Hcs)].
  - intros fields Hbody Herr. rewrite Hbody in Hcs. cbn [own_prop] in Hcs.
    rewrite Herr in Hcs. cbn [js_or truthy] in Hcs.
    split; [exact Hcs | exact (Hshown _ Hcs)].
  - intros e Hbody. rewrite Hbody in Hcs.
    split; [exact Hcs | exact (Hshown _ Hcs)].
Qed.

Lemma C2_shown_message_on_failed_reply_witness :
  errorMessage (initChatKit sample_config 51 (env_with 300 reply_error_X) sample_page).2 =
    Some "Failed to initialize ChatKit: X" /\
  errorMessage
    (initChatKit sample_config 51 (env_with 300 reply_no_error_field) sample_page).2 =
    Some "Failed to initialize ChatKit: HTTP 503: Failed to create session" /\
  errorMessage (initChatKit sample_config 51 (env_with 300 reply_not_json) sample_page).2 =
    Some "Failed to initialize ChatKit: Unexpected token '<'".
Proof.
  assert (Hreg : forall reply, registered_in_time (env_with 300 reply) sample_page).
  { intros reply. exists 3. split; [unfold maxAttempts; lia | reflexivity]. }
  split; [|split].
  - refine (proj2 (proj1 (C2_shown_message_on_failed_reply sample_config
      (env_with 300 reply_error_X) 51 sample_page
      (mkResponse 500 (Parsed (JObj [("error", JStr "X")])))
      _ (Hreg _) eq_refl eq_refl) [("error", JStr "X")] "X" eq_refl eq_refl _)).
    + lia.
    + discriminate.
  - refine (proj2 (proj1 (proj2 (C2_shown_message_on_failed_reply sample_config
      (env_with 300 reply_no_error_field) 51 sample_page
      (mkResponse 503 (Parsed (JObj [("detail", JStr "unavailable")])))
      _ (Hreg _) eq_refl eq_refl)) [("detail", JStr "unavailable")] eq_refl eq_refl)).
    lia.
  - refine (proj2 (proj2 (proj2 (C2_shown_message_on_failed_reply sample_config
      (env_with 300 reply_not_json) 51 sample_page
      (mkResponse 502 (Unparseable (mkError "SyntaxError" "Unexpected token '<'")))
      _ (Hreg _) eq_refl eq_refl)) _ eq_refl)).
    lia.
Defined.

(** C2 (as stated) fails: for a 500 reply with body [{"error": "X"}] the
    user is shown "Failed to initialize ChatKit: X", not "X"; an empty
    [error] field counts as missing; and a body that is not JSON yields the
    parser's message, not an "HTTP <status>" one. *)
Lemma C2_counterexample :
  errorMessage (initChatKit sample_config 51 (env_with 300 reply_error_X) sample_page).2 =
    Some "Failed to initialize ChatKit: X" /\
  errorMessage (initChatKit sample_config 51 (env_with 300 reply_error_X) sample_page).2 <>
    Some "X" /\
  errorMessage (initChatKit sample_config 51 (env_with 300 reply_empty_error) sample_page).2 =
    Some "Failed to initialize ChatKit: HTTP 500: Failed to create session" /\
  (createSession sample_config (env_with 300 reply_not_json) sample_page).1 =
    Throw (mkError "SyntaxError" "Unexpected token '<'") /\
  errorMessage (initChatKit sample_config 51 (env_with 300 reply_not_json) sample_page).2 =
    Some "Failed to initialize ChatKit: Unexpected token '<'".
Proof. vm_compute. repeat split; congruence. Qed.

(** C3. When the component never registers, the initialization entry
    point returns after the full wait without issuing a network request. *)
Theorem C3_no_request_without_component cfg env (fuel : nat) (w : World) :
  (50 < fuel)%nat -> never_registered env w ->
  (initChatKit cfg fuel env w).1 = Ret tt /\
  clock (initChatKit cfg fuel env w).2 = clock w + 5000 /\
  requests (initChatKit cfg fuel env w).2 = requests w.
Proof.
  intros Hfuel Hnever. rewrite initChatKit_timeout by done. done.
Qed.

Lemma C3_no_request_without_component_witness :
  (50 < 51)%nat /\ never_registered env_never sample_page /\
  (initChatKit sample_config 51 env_never sample_page).1 = Ret tt /\
  clock (initChatKit sample_config 51 env_never sample_page).2 =
    clock sample_page + 5000 /\
  requests (initChatKit sample_config 51 env_never sample_page).2 =
    requests sample_page.
Proof.
  split; [lia|]. split; [intros k _; reflexivity|].
  apply (C3_no_request_without_component sample_config env_never 51 sample_page);
    [lia | intros k _; reflexivity].
Defined.

(** C4. After a successful session creation the element that
    [initChatKit] creates carries the session's [client_secret] as its
    session token, and it is that element which is mounted; when [id] and
    [client_secret] differ, the token is not the [id]. *)
Theorem C4_token_is_client_secret cfg env (fuel : nat) (w : World) (session : json) :
  (50 < fuel)%nat -> registered_in_time env w ->
  (createSession cfg env w).1 = Ret session ->
  exists (r : nat) (el : Element.t),
    chatkitElement (initChatKit cfg fuel env w).2 = Some r /\
    elements (initChatKit cfg fuel env w).2 !! r = Some el /\
    Element.sessionToken el = Some (own_prop session "client_secret") /\
    chatkitContainer (initChatKit cfg fuel env w).2 =
      (fun _ => [N_chatkit r]) <$> chatkitContainer w /\
    (own_prop session "id" <> own_prop session "client_secret" ->
     Element.sessionToken el <> Some (own_prop session "id")).
Proof.
  intros Hfuel Hreg Hret.
  destruct (initChatKit_mounted cfg env fuel w session Hfuel Hreg Hret) as (n & _ & ->).
  cbn [snd chatkitElement elements chatkitContainer].
  eexists _, _. split; [reflexivity|]. split.
  { rewrite lookup_app_r by lia. rewrite Nat.sub_diag. reflexivity. }
  cbn [Element.sessionToken]. repeat split. congruence.
Qed.

Lemma C4_token_is_client_secret_witness :
  exists (r : nat) (el : Element.t),
    chatkitElement
      (initChatKit sample_config 51 (env_with 300 reply_session) sample_page).2 = Some r /\
    elements
      (initChatKit sample_config 51 (env_with 300 reply_session) sample_page).2 !! r =
      Some el /\
    Element.sessionToken el = Some (Some (JStr "ek_secret_9")) /\
    chatkitContainer
      (initChatKit sample_config 51 (env_with 300 reply_session) sample_page).2 =
      Some [N_chatkit r] /\
    (own_prop sample_session "id" <> own_prop sample_session "client_secret" ->
     Element.sessionToken el <> Some (own_prop sample_session "id")).
Proof.
  refine (C4_token_is_client_secret sample_config (env_with 300 reply_session) 51
            sample_page sample_session _ _ eq_refl).
  - lia.
  - exists 3. split; [unfold maxAttempts; lia | reflexivity].
Defined.

(** C5. A mount puts the new element in as the container's only child,
    whatever the container held; so over any sequence of theme toggles and
    restarts, a container that starts with at most one widget never holds
    more than one. *)
Theorem C5_at_most_one_widget_mounted cfg (fuel : nat) :
  (50 < fuel)%nat ->
  (forall env w children session,
     registered_in_time env w -> (createSession cfg env w).1 = Ret session ->
     chatkitContainer w = Some children ->
     chatkitContainer (retryChatKit cfg fuel env w).2 =
       Some [N_chatkit (length (elements w))] /\
     mounted_widgets (retryChatKit cfg fuel env w).2 = 1%nat) /\
  (forall trace w,
     (mounted_widgets w <= 1)%nat ->
     (mounted_widgets (handle_all cfg fuel trace w) <= 1)%nat).
Proof.
  intros Hfuel. split.
  - intros env w children session Hreg Hret Hc. unfold retryChatKit, mounted_widgets.
    destruct (initChatKit_mounted cfg env fuel w session Hfuel Hreg Hret) as (n & _ & ->).
    cbn [snd chatkitContainer]. rewrite Hc. done.
  - intros trace. unfold handle_all.
    induction trace as [|[ev env] trace IH]; intros w Hw; [exact Hw|].
    cbn [foldl]. apply IH. apply handle_mounted_widgets; done.
Qed.

Lemma C5_at_most_one_widget_mounted_witness :
  chatkitContainer
    (retryChatKit sample_config 51 (env_with 300 reply_session)
       (retryChatKit sample_config 51 (env_with 0 reply_session) sample_page).2).2 =
    Some [N_chatkit 1%nat] /\
  (mounted_widgets
     (handle_all sample_config 51
        [(E_retryChatKit, env_with 0 reply_session);
         (E_toggleTheme, env_never);
         (E_retryChatKit, env_with 0 reply_error_X);
         (E_retryChatKit, env_with 0 reply_session)]
        sample_page) <= 1)%nat.
Proof.
  assert (Hfuel : (50 < 51)%nat) by lia.
  pose proof (C5_at_most_one_widget_mounted sample_config 51 Hfuel) as [Hmount Hinv].
  split.
  - refine (proj1 (Hmount (env_with 300 reply_session)
      (retryChatKit sample_config 51 (env_with 0 reply_session) sample_page).2
      [N_chatkit 0%nat] sample_session _ eq_refl eq_refl)).
    exists 3. split; [unfold maxAttempts; lia | reflexivity].
  - apply Hinv. cbn. lia.
Defined.

(** C6. The wait for the component always ends: it looks for the
    registration once per 100 time units, gives up after 50 waits (5000
    time units), and stops at the first moment it finds the component
    registered. *)
Theorem C6_wait_terminates env (fuel : nat) (w : World) :
  (50 < fuel)%nat ->
  exists attempts : Z,
    0 <= attempts <= 50 /\
    waitForComponent fuel env w = (Ret attempts, advance (100 * attempts) w) /\
    clock (waitForComponent fuel env w).2 = clock w + 100 * attempts /\
    clock (waitForComponent fuel env w).2 <= clock w + 5000 /\
    (forall k, 0 <= k < attempts ->
       customElements_defined env (clock w + 100 * k) = false) /\
    (customElements_defined env (clock w + 100 * attempts) = true \/ attempts = 50).
Proof.
  intros Hfuel.
  destruct (wait_spec env fuel w Hfuel) as (n & Hn & Heq & Hnot & Hex).
  unfold maxAttempts in *.
  exists n. rewrite Heq. cbn [snd]. rewrite clock_advance.
  repeat split; try done; lia.
Qed.

Lemma C6_wait_terminates_witness :
  (50 < 51)%nat /\
  exists attempts : Z,
    0 <= attempts <= 50 /\
    waitForComponent 51 (env_with 300 reply_session) sample_page =
      (Ret attempts, advance (100 * attempts) sample_page) /\
    clock (waitForComponent 51 (env_with 300 reply_session) sample_page).2 =
      clock sample_page + 100 * attempts /\
    clock (waitForComponent 51 (env_with 300 reply_session) sample_page).2 <=
      clock sample_page + 5000 /\
    (forall k, 0 <= k < attempts ->
       customElements_defined (env_with 300 reply_session)
         (clock sample_page + 100 * k) = false) /\
    (customElements_defined (env_with 300 reply_session)
       (clock sample_page + 100 * attempts) = true \/ attempts = 50).
Proof.
  split; [lia|].
  apply (C6_wait_terminates (env_with 300 reply_session) 51 sample_page). lia.
Defined.

(** C7 (as the code has it). Toggling the theme twice, or any even number
    of times, returns the document dark flag to its original value and
    leaves the stored preference at the value that goes with that flag; so
    the stored preference is back at its original value exactly when it
    agreed with the flag to begin with. *)
Theorem C7_even_toggles env (n : nat) (w : World) :
  dark (toggles (2 * S n) env w) = dark w /\
  stored_theme (toggles (2 * S n) env w) = Some (theme_of (dark w)) /\
  (stored_theme (toggles (2 * S n) env w) = stored_theme w <->
   stored_theme w = Some (theme_of (dark w))).
Proof.
  destruct (toggles_even env n w) as [Hd Hs].
  split; [exact Hd|]. split; [exact Hs|].
  rewrite Hs. split; congruence.
Qed.

(** C7 (as stated) fails: on a first visit nothing is stored, and after two
    toggles the preference "light" is. *)
Lemma C7_counterexample :
  stored_theme first_visit = None /\
  stored_theme (toggleTheme env_never (toggleTheme env_never first_visit).2).2 =
    Some "light" /\
  stored_theme (toggleTheme env_never (toggleTheme env_never first_visit).2).2 <>
    stored_theme first_visit /\
  dark (toggleTheme env_never (toggleTheme env_never first_visit).2).2 =
    dark first_visit.
Proof. vm_compute. repeat split; congruence. Qed.

(** C8. When session creation fails, [initChatKit] leaves the container,
    the created elements and the [chatkitElement] reference as they were;
    and every run either does so or ends with the new element mounted as the
    container's only child. *)
Theorem C8_failed_session_leaves_container cfg env (fuel : nat) (w : World) :
  (50 < fuel)%nat ->
  (forall e, (createSession cfg env w).1 = Throw e ->
     chatkitContainer (initChatKit cfg fuel env w).2 = chatkitContainer w /\
     elements (initChatKit cfg fuel env w).2 = elements w /\
     chatkitElement (initChatKit cfg fuel env w).2 = chatkitElement w) /\
  ((chatkitContainer (initChatKit cfg fuel env w).2 = chatkitContainer w /\
    elements (initChatKit cfg fuel env w).2 = elements w /\
    chatkitElement (initChatKit cfg fuel env w).2 = chatkitElement w) \/
   (exists session el,
      (createSession cfg env w).1 = Ret session /\
      elements (initChatKit cfg fuel env w).2 = elements w ++ [el] /\
      chatkitElement (initChatKit cfg fuel env w).2 = Some (length (elements w)) /\
      chatkitContainer (initChatKit cfg fuel env w).2 =
        (fun _ => [N_chatkit (length (elements w))]) <$> chatkitContainer w)).
Proof.
  intros Hfuel.
  destruct (initChatKit_paths cfg env w) as [Hnever|[[Hreg [e He]]|[Hreg [s Hs]]]].
  - rewrite initChatKit_timeout by done. split; [|left]; done.
  - destruct (initChatKit_session_error cfg env fuel w e) as (n & _ & ->); try done.
    split; [|left]; done.
  - destruct (initChatKit_mounted cfg env fuel w s) as (n & _ & ->); try done.
    split.
    + intros e He. congruence.
    + right. eexists s, _. done.
Qed.

Lemma C8_failed_session_leaves_container_witness :
  (createSession sample_config (env_with 0 reply_error_X)
     (initChatKit sample_config 51 (env_with 0 reply_session) sample_page).2).1 =
    Throw (mkError "Error" "X") /\
  chatkitContainer
    (initChatKit sample_config 51 (env_with 0 reply_error_X)
       (initChatKit sample_config 51 (env_with 0 reply_session) sample_page).2).2 =
    Some [N_chatkit 0%nat].
Proof.
  split; [reflexivity|].
  refine (proj1 (proj1 (C8_failed_session_leaves_container sample_config
    (env_with 0 reply_error_X) 51
    (initChatKit sample_config 51 (env_with 0 reply_session) sample_page).2 _)
    (mkError "Error" "X") eq_refl)).
  lia.
Defined.

(** C9. Each call of [createSession] issues exactly one request, whatever
    the reply: a POST to the configured endpoint with the header
    [Content-Type: application/json], credentials included, and as body the
    JSON text of [{workflow: {id: workflowId}, chatkit_configuration:
    {file_upload: {enabled: false}}}]. *)
Theorem C9_session_request_shape cfg env (w : World) :
  requests (createSession cfg env w).2 =
  requests w ++
  [ {| url := sessionEndpoint cfg;
       method := "POST";
       headers := [("Content-Type", "application/json")];
       credentials := "include";
       body := JSON_stringify
         (JObj [("workflow", JObj [("id", JStr (workflowId cfg))]);
                ("chatkit_configuration",
                 JObj [("file_upload", JObj [("enabled", JBool false)])])]) |} ].
Proof. rewrite createSession_world. reflexivity. Qed.

(** C10. After a toggle the stored preference agrees with the dark flag:
    it is "dark" exactly when the flag is set, and "light" exactly when it
    is not, whatever both were before. *)
Theorem C10_toggle_syncs_storage env (w : World) :
  stored_theme (toggleTheme env w).2 = Some (theme_of (dark (toggleTheme env w).2)) /\
  (stored_theme (toggleTheme env w).2 = Some "dark" <->
   dark (toggleTheme env w).2 = true) /\
  (stored_theme (toggleTheme env w).2 = Some "light" <->
   dark (toggleTheme env w).2 = false).
Proof.
  rewrite stored_theme_toggleTheme, dark_toggleTheme.
  unfold theme_of. destruct (dark w); cbn [negb]; repeat split; congruence.
Qed.

(** ** Further properties: configuration *)

Lemma or_default_nonempty (s : option string) (fallback : string) :
  fallback <> "" -> or_default s fallback <> "".
Proof.
  intros Hf. unfold or_default. destruct s as [x|]; [|exact Hf].
  destruct (String.eqb x "") eqn:Hx; [exact Hf|]. by apply String.eqb_neq.
Qed.

Lemma or_default_given (x fallback : string) :
  x <> "" -> or_default (Some x) fallback = x.
Proof. intros Hx. unfold or_default. apply String.eqb_neq in Hx. by rewrite Hx. Qed.

(** X1. Whatever the script tag carries, the configuration never has an
    empty endpoint, placeholder or greeting: an attribute that is missing or
    empty gets its default, and one that is set to a non-empty string is
    taken as it is.  The workflow id is the attribute or the empty string. *)
Theorem X1_config_defaults (currentScript : option (gmap string string)) :
  sessionEndpoint (load_CONFIG currentScript) <> "" /\
  placeholder (load_CONFIG currentScript) <> "" /\
  greeting (load_CONFIG currentScript) <> "" /\
  (forall data v, currentScript = Some data -> v <> "" ->
     (data !! "workflowId" = Some v -> workflowId (load_CONFIG currentScript) = v) /\
     (data !! "sessionEndpoint" = Some v ->
        sessionEndpoint (load_CONFIG currentScript) = v) /\
     (data !! "placeholder" = Some v -> placeholder (load_CONFIG currentScript) = v) /\
     (data !! "greeting" = Some v -> greeting (load_CONFIG currentScript) = v)) /\
  (forall data, currentScript = Some data ->
     (data !! "workflowId" = None \/ data !! "workflowId" = Some "" ->
        workflowId (load_CONFIG currentScript) = "") /\
     (data !! "sessionEndpoint" = None \/ data !! "sessionEndpoint" = Some "" ->
        sessionEndpoint (load_CONFIG currentScript) = "/api/create-session") /\
     (data !! "placeholder" = None \/ data !! "placeholder" = Some "" ->
        placeholder (load_CONFIG currentScript) = "Ask anything...") /\
     (data !! "greeting" = None \/ data !! "greeting" = Some "" ->
        greeting (load_CONFIG currentScript) = "How can I help you today?")) /\
  (currentScript = None ->
     load_CONFIG currentScript =
     mkConfig "" "/api/create-session" "Ask anything..." "How can I help you today?").
Proof.
  unfold load_CONFIG. cbn [sessionEndpoint placeholder greeting workflowId].
  split; [by apply or_default_nonempty|].
  split; [by apply or_default_nonempty|].
  split; [by apply or_default_nonempty|].
  split; [|split].
  - intros data v -> Hv. cbn [mbind option_bind].
    repeat split; intros ->; by apply or_default_given.
  - intros data ->. cbn [mbind option_bind].
    repeat split; intros [-> | ->]; reflexivity.
  - intros ->. reflexivity.
Qed.

Example load_CONFIG_sample :
  load_CONFIG (Some sample_dataset) =
  mkConfig "wf_42" "/api/create-session" "Ask anything..." "How can I help you today?".
Proof. vm_compute. reflexivity. Qed.

(** ** Further properties: the theme *)

Lemma contains_add token l : contains token (add token l) = true.
Proof.
  unfold add. destruct (contains token l) eqn:Hc; [exact Hc | apply contains_snoc].
Qed.

(** The page after [initializeTheme]. *)
Lemma initializeTheme_run env w :
  initializeTheme env w =
  (Ret tt,
   mkWorld (clock w)
     (if match localStorage w !! "theme" with
         | Some s => if String.eqb s "" then prefers_dark env else String.eqb s "dark"
         | None => prefers_dark env
         end
      then add "dark" (classList w) else classList w)
     (localStorage w) (elements w) (chatkitElement w) (chatkitContainer w)
     (errorOverlay w) (errorMessage w) (retryButton w)
     ((fun l => if bool_decide (H_toggleTheme ∈ l) then l else l ++ [H_toggleTheme])
        <$> themeToggle w)
     (requests w)).
Proof.
  unfold initializeTheme.
  rewrite (bind_Ret _ _ env w w w) by reflexivity.
  rewrite (bind_Ret _ _ env w env w) by reflexivity.
  cbv zeta.
  destruct w as [? cl ls ? ? ? ? ? ? tt' ?]. cbn [localStorage prefers_dark].
  destruct (match ls !! "theme" with
            | Some s => if String.eqb s "" then prefers_dark env else String.eqb s "dark"
            | None => prefers_dark env
            end); cbv [bind modify ret]; setters; reflexivity.
Qed.

Lemma initializeTheme_dark env (w : World) :
  (stored_theme w = Some "dark" -> dark (initializeTheme env w).2 = true) /\
  (stored_theme w = None ->
     dark (initializeTheme env w).2 = dark w || prefers_dark env).
Proof.
  rewrite initializeTheme_run. unfold stored_theme, dark.
  cbn [snd classList localStorage]. split.
  - intros ->. eqb_literals. apply contains_add.
  - intros ->. destruct (prefers_dark env);
      rewrite ?contains_add, ?orb_true_r, ?orb_false_r; reflexivity.
Qed.

(** X2. [initializeTheme] decides the dark flag from the stored preference
    first and the OS scheme second: a stored "dark" sets the flag; any other
    non-empty stored value leaves the flag as the page had it, whatever the
    OS prefers; with nothing (or the empty string) stored, the flag is set
    when the OS prefers dark.  It never clears a flag that is set and never
    writes to storage. *)
Theorem X2_initializeTheme_precedence env (w : World) :
  (stored_theme w = Some "dark" -> dark (initializeTheme env w).2 = true) /\
  (forall s, stored_theme w = Some s -> s <> "" -> s <> "dark" ->
     dark (initializeTheme env w).2 = dark w) /\
  (stored_theme w = None \/ stored_theme w = Some "" ->
     dark (initializeTheme env w).2 = dark w || prefers_dark env) /\
  (dark w = true -> dark (initializeTheme env w).2 = true) /\
  localStorage (initializeTheme env w).2 = localStorage w.
Proof.
  rewrite initializeTheme_run. unfold stored_theme, dark.
  cbn [snd classList localStorage].
  split; [|split; [|split; [|split]]].
  - intros ->. eqb_literals. apply contains_add.
  - intros s -> Hs Hd. apply String.eqb_neq in Hs, Hd. rewrite Hs, Hd. reflexivity.
  - intros [-> | ->]; eqb_literals;
      destruct (prefers_dark env);
      rewrite ?contains_add, ?orb_true_r, ?orb_false_r; reflexivity.
  - intros Hd.
    destruct (match localStorage w !! "theme" with
              | Some s => if String.eqb s "" then prefers_dark env else String.eqb s "dark"
              | None => prefers_dark env
              end); [apply contains_add | exact Hd].
  - reflexivity.
Qed.

(** X3. A toggled theme survives a reload: on a page that carries the
    storage a toggle left behind and has no dark class of its own,
    [initializeTheme] brings the dark flag back to what the toggle made it,
    whatever the OS prefers. *)
Theorem X3_toggled_theme_survives_reload env env' (w reloaded : World) :
  localStorage reloaded = localStorage (toggleTheme env w).2 ->
  dark reloaded = false ->
  dark (initializeTheme env' reloaded).2 = dark (toggleTheme env w).2.
Proof.
  intros Hls Hd.
  pose proof (stored_theme_toggleTheme env w) as Hst. unfold stored_theme in Hst.
  rewrite <- Hls in Hst.
  rewrite dark_toggleTheme.
  rewrite initializeTheme_run. unfold dark in *. cbn [snd classList].
  rewrite Hst. destruct (contains "dark" (classList w)); eqb_literals; cbn [negb].
  - exact Hd.
  - apply contains_add.
Qed.

Lemma X3_toggled_theme_survives_reload_witness :
  localStorage (mkWorld 0 [] {["theme" := "dark"]} [] None None None None None None []) =
    localStorage (toggleTheme env_never first_visit).2 /\
  dark (initializeTheme env_never
          (mkWorld 0 [] {["theme" := "dark"]} [] None None None None None None [])).2 =
    dark (toggleTheme env_never first_visit).2.
Proof.
  split; [reflexivity|].
  apply (X3_toggled_theme_survives_reload env_never env_never first_visit
           (mkWorld 0 [] {["theme" := "dark"]} [] None None None None None None []));
    reflexivity.
Defined.

Lemma theme_of_dark_toggle env w :
  theme_of (dark (toggleTheme env w).2) = if dark w then "light" else "dark".
Proof. rewrite dark_toggleTheme. unfold theme_of. by destruct (dark w). Qed.

Lemma toggleTheme_lookup env w r el :
  chatkitElement w = Some r -> elements w !! r = Some el ->
  elements (toggleTheme env w).2 !! r =
    Some (set_theme (theme_of (dark (toggleTheme env w).2)) el).
Proof.
  intros Hr Hel. rewrite theme_of_dark_toggle.
  rewrite toggleTheme_run. cbn [snd elements]. rewrite Hr.
  rewrite list_lookup_alter_eq, Hel. reflexivity.
Qed.

Lemma toggleTheme_theme_synced env w : theme_synced (toggleTheme env w).2.
Proof.
  intros r el Hr Hel.
  assert (Hr' : chatkitElement w = Some r).
  { rewrite toggleTheme_run in Hr. exact Hr. }
  destruct (elements w !! r) as [el0|] eqn:Hel0.
  - rewrite (toggleTheme_lookup env w r el0 Hr' Hel0) in Hel.
    injection Hel as <-. reflexivity.
  - rewrite toggleTheme_run in Hel. cbn [snd elements] in Hel.
    rewrite Hr', list_lookup_alter_eq, Hel0 in Hel. discriminate.
Qed.

(** X4. A click on the theme toggle pushes the new theme onto the element
    behind [chatkitElement] and onto nothing else: afterwards that element's
    theme agrees with the dark flag, its other properties and every other
    element are as before, and so are the container, the error display, the
    retry control and the request log. *)
Theorem X4_toggle_pushes_theme env (w : World) :
  (forall r el, chatkitElement w = Some r -> elements w !! r = Some el ->
     elements (toggleTheme env w).2 !! r =
       Some (set_theme (theme_of (dark (toggleTheme env w).2)) el)) /\
  (forall i, chatkitElement w <> Some i ->
     elements (toggleTheme env w).2 !! i = elements w !! i) /\
  theme_synced (toggleTheme env w).2 /\
  chatkitElement (toggleTheme env w).2 = chatkitElement w /\
  chatkitContainer (toggleTheme env w).2 = chatkitContainer w /\
  errorOverlay (toggleTheme env w).2 = errorOverlay w /\
  errorMessage (toggleTheme env w).2 = errorMessage w /\
  retryButton (toggleTheme env w).2 = retryButton w /\
  requests (toggleTheme env w).2 = requests w.
Proof.
  split; [apply toggleTheme_lookup|].
  split; [|split; [apply toggleTheme_theme_synced|]].
  - intros i Hi. rewrite toggleTheme_run. cbn [snd elements].
    destruct (chatkitElement w) as [r|]; [|reflexivity].
    apply list_lookup_alter_ne. congruence.
  - rewrite toggleTheme_run. done.
Qed.

Lemma initChatKit_theme_synced cfg env (fuel : nat) w :
  (50 < fuel)%nat -> theme_synced w -> theme_synced (initChatKit cfg fuel env w).2.
Proof.
  intros Hfuel Hw.
  destruct (initChatKit_paths cfg env w) as [Hnever|[[Hreg [e He]]|[Hreg [s Hs]]]].
  - rewrite initChatKit_timeout by done. exact Hw.
  - destruct (initChatKit_session_error cfg env fuel w e) as (n & _ & ->); try done.
  - destruct (initChatKit_mounted cfg env fuel w s) as (n & _ & ->); try done.
    intros r el. unfold dark. cbn [snd chatkitElement elements classList].
    intros [= <-]. rewrite lookup_app_r by lia. rewrite Nat.sub_diag.
    intros [= <-]. reflexivity.
Qed.

(** X5. Over any sequence of theme toggles and restarts, the element
    behind [chatkitElement] keeps the theme that goes with the dark flag:
    a mount gives the new element the current theme and every toggle
    updates it. *)
Theorem X5_widget_theme_follows_flag cfg (fuel : nat) (trace : list (event * Env))
    (w : World) :
  (50 < fuel)%nat -> theme_synced w ->
  theme_synced (handle_all cfg fuel trace w).
Proof.
  intros Hfuel. unfold handle_all. revert w.
  induction trace as [|[ev env] trace IH]; intros w Hw; [exact Hw|].
  cbn [foldl]. apply IH. destruct ev; cbn [handle fst snd].
  - apply toggleTheme_theme_synced.
  - by apply initChatKit_theme_synced.
Qed.

Lemma X5_widget_theme_follows_flag_witness :
  (50 < 51)%nat /\
  theme_synced
    (handle_all sample_config 51
       [(E_retryChatKit, env_with 0 reply_session);
        (E_toggleTheme, env_never);
        (E_retryChatKit, env_with 0 reply_error_X);
        (E_toggleTheme, env_never);
        (E_retryChatKit, env_with 200 reply_session)]
       sample_page).
Proof.
  split; [lia|].
  apply (X5_widget_theme_follows_flag sample_config 51); [lia|].
  intros r el Hr. discriminate Hr.
Defined.

Lemma toggles_keep env (n : nat) (w : World) :
  chatkitElement (toggles n env w) = chatkitElement w /\
  chatkitContainer (toggles n env w) = chatkitContainer w /\
  requests (toggles n env w) = requests w /\
  forall i el, elements w !! i = Some el ->
    exists el', elements (toggles n env w) !! i = Some el' /\
      Element.sessionToken el' = Element.sessionToken el /\
      Element.placeholder el' = Element.placeholder el /\
      Element.greetingText el' = Element.greetingText el.
Proof.
  induction n as [|n (IHr & IHc & IHq & IHe)].
  - change (toggles 0 env w) with w. repeat split. intros i el Hel. by exists el.
  - rewrite toggles_S, toggleTheme_run.
    cbn [snd chatkitElement chatkitContainer requests elements].
    split; [exact IHr|]. split; [exact IHc|]. split; [exact IHq|].
    intros i el Hel. destruct (IHe i el Hel) as (el' & Hel' & Ht & Hp & Hg).
    destruct (chatkitElement (toggles n env w)) as [r|]; [|by exists el'].
    destruct (decide (r = i)) as [->|Hne].
    + rewrite list_lookup_alter_eq, Hel'. cbn [fmap option_fmap option_map].
      eexists. split; [reflexivity|]. done.
    + rewrite list_lookup_alter_ne by done. by exists el'.
Qed.

(** X6. Once a widget is mounted, toggling the theme any number of times
    leaves it mounted as the container's only child with the session's
    [client_secret] as its token and the configured placeholder and
    greeting; only its theme moves, with the dark flag. *)
Theorem X6_mounted_widget_survives_toggles cfg env env' (fuel n : nat) (w : World)
    (session : json) (children : list node) :
  (50 < fuel)%nat -> registered_in_time env w ->
  (createSession cfg env w).1 = Ret session ->
  chatkitContainer w = Some children ->
  exists el,
    elements (toggles n env' (initChatKit cfg fuel env w).2) !! length (elements w) =
      Some el /\
    Element.sessionToken el = Some (own_prop session "client_secret") /\
    Element.placeholder el = Some (placeholder cfg) /\
    Element.greetingText el = Some (greeting cfg) /\
    Element.theme el =
      Some (theme_of (dark (toggles n env' (initChatKit cfg fuel env w).2))) /\
    chatkitElement (toggles n env' (initChatKit cfg fuel env w).2) =
      Some (length (elements w)) /\
    chatkitContainer (toggles n env' (initChatKit cfg fuel env w).2) =
      Some [N_chatkit (length (elements w))].
Proof.
  intros Hfuel Hreg Hret Hc.
  destruct (initChatKit_mounted cfg env fuel w session Hfuel Hreg Hret) as (k & _ & Hrun).
  set (w1 := (initChatKit cfg fuel env w).2) in *.
  assert (Hw1 : chatkitElement w1 = Some (length (elements w)) /\
                chatkitContainer w1 = Some [N_chatkit (length (elements w))] /\
                exists el0, elements w1 !! length (elements w) = Some el0 /\
                  Element.sessionToken el0 = Some (own_prop session "client_secret") /\
                  Element.placeholder el0 = Some (placeholder cfg) /\
                  Element.greetingText el0 = Some (greeting cfg) /\
                  Element.theme el0 = Some (theme_of (dark w1))).
  { unfold w1. rewrite Hrun. unfold dark.
    cbn [snd chatkitElement chatkitContainer elements classList].
    rewrite Hc. split; [done|]. split; [done|].
    eexists. split.
    - rewrite lookup_app_r by lia. rewrite Nat.sub_diag. reflexivity.
    - done. }
  destruct Hw1 as (Hr1 & Hc1 & el0 & Hel0 & Ht0 & Hp0 & Hg0 & Hth0).
  destruct (toggles_keep env' n w1) as (Hr & Hcn & _ & He).
  destruct (He _ _ Hel0) as (el & Hel & Ht & Hp & Hg).
  exists el. split; [exact Hel|].
  split; [congruence|]. split; [congruence|]. split; [congruence|].
  split; [|split; congruence].
  assert (Hsync : theme_synced (toggles n env' w1)).
  { clear -Hth0 Hr1 Hel0. destruct n as [|n].
    - intros r el Hr Hel. change (toggles 0 env' w1) with w1 in *. congruence.
    - rewrite toggles_S. apply toggleTheme_theme_synced. }
  apply (Hsync (length (elements w)) el); [congruence | exact Hel].
Qed.

Lemma X6_mounted_widget_survives_toggles_witness :
  (50 < 51)%nat /\
  exists el,
    elements (toggles 3 env_never
      (initChatKit sample_config 51 (env_with 300 reply_session) sample_page).2)
      !! length (elements sample_page) = Some el /\
    Element.sessionToken el = Some (own_prop sample_session "client_secret") /\
    Element.placeholder el = Some (placeholder sample_config) /\
    Element.greetingText el = Some (greeting sample_config) /\
    Element.theme el =
      Some (theme_of (dark (toggles 3 env_never
        (initChatKit sample_config 51 (env_with 300 reply_session) sample_page).2))) /\
    chatkitElement (toggles 3 env_never
      (initChatKit sample_config 51 (env_with 300 reply_session) sample_page).2) =
      Some (length (elements sample_page)) /\
    chatkitContainer (toggles 3 env_never
      (initChatKit sample_config 51 (env_with 300 reply_session) sample_page).2) =
      Some [N_chatkit (length (elements sample_page))].
Proof.
  split; [lia|].
  refine (X6_mounted_widget_survives_toggles sample_config (env_with 300 reply_session)
            env_never 51 3 sample_page sample_session [N_other "Loading chat..."]
            _ _ eq_refl eq_refl).
  - lia.
  - exists 3. split; [unfold maxAttempts; lia | reflexivity].
Defined.


(** ** Further properties: what a computation leaves alone *)

Section Frame.
Context {B : Type} (proj : World -> B).

Lemma frame_ret {A} (a : A) : frame proj (ret a).
Proof. intros env w. reflexivity. Qed.

Lemma frame_throw {A} (e : Error) : frame proj (@throw A e).
Proof. intros env w. reflexivity. Qed.

Lemma frame_get_world : frame proj get_world.
Proof. intros env w. reflexivity. Qed.

Lemma frame_get_env : frame proj get_env.
Proof. intros env w. reflexivity. Qed.

Lemma frame_modify (f : World -> World) :
  (forall w, proj (f w) = proj w) -> frame proj (modify f).
Proof. intros Hf env w. apply Hf. Qed.

Lemma frame_bind {A C} (m : M A) (k : A -> M C) :
  frame proj m -> (forall a, frame proj (k a)) -> frame proj (bind m k).
Proof.
  intros Hm Hk env w. unfold bind. specialize (Hm env w).
  destruct (m env w) as [[a|e|] w']; cbn [snd] in *; [|exact Hm..].
  rewrite Hk. exact Hm.
Qed.

Lemma frame_try_catch {A} (m : M A) (h : Error -> M A) :
  frame proj m -> (forall e, frame proj (h e)) -> frame proj (try_catch m h).
Proof.
  intros Hm Hh env w. unfold try_catch. specialize (Hm env w).
  destruct (m env w) as [[a|e|] w']; cbn [snd] in *; [exact Hm| |exact Hm].
  rewrite Hh. exact Hm.
Qed.

Lemma frame_while {L} (fuel : nat) (cond : L -> M bool) (body : L -> M L) :
  (forall s, frame proj (cond s)) -> (forall s, frame proj (body s)) ->
  forall s, frame proj (while fuel cond body s).
Proof.
  intros Hc Hb. induction fuel as [|fuel IH]; intros s.
  - intros env w. reflexivity.
  - cbn [while]. apply frame_bind; [apply Hc|].
    intros [|]; [|apply frame_ret]. apply frame_bind; [apply Hb | apply IH].
Qed.

(** After [m], a continuation that leaves [proj] alone does not change what
    [m] made of it. *)
Lemma frame_after_bind {A C} (m : M A) (k : A -> M C) env w :
  (forall a, frame proj (k a)) -> proj (bind m k env w).2 = proj (m env w).2.
Proof.
  intros Hk. unfold bind. destruct (m env w) as [[a|e|] w']; [apply Hk|done..].
Qed.

Lemma frame_after_try_catch {A} (m : M A) (h : Error -> M A) env w :
  (forall e, frame proj (h e)) -> proj (try_catch m h env w).2 = proj (m env w).2.
Proof.
  intros Hh. unfold try_catch. destruct (m env w) as [[a|e|] w']; [done|apply Hh|done].
Qed.

Lemma frame_get_prop v prop : frame proj (get_prop v prop).
Proof.
  destruct v; try apply frame_ret.
  apply frame_bind; [apply frame_get_env | intros; apply frame_throw].
Qed.

Lemma frame_response_json r : frame proj (response_json r).
Proof. unfold response_json. destruct (json_body r); [apply frame_throw|apply frame_ret]. Qed.

End Frame.

Ltac solve_frame :=
  repeat first
    [ progress intros
    | apply frame_ret | apply frame_throw | apply frame_get_world | apply frame_get_env
    | apply frame_get_prop | apply frame_response_json
    | match goal with
      | |- frame _ (bind _ _) => apply frame_bind
      | |- frame _ (try_catch _ _) => apply frame_try_catch
      | |- frame _ (modify _) => apply frame_modify; intros; reflexivity
      | |- frame _ (while _ _ _ _) => apply frame_while
      | |- frame _ (if ?b then _ else _) => destruct b
      | |- frame _ (match ?x with _ => _ end) => destruct x
      end ].

Ltac unfold_script :=
  unfold initChatKit, waitForComponent, createSession, fetch, showError, hideError,
    customElements_get, sleep, createElement, assign, updateChatkitTheme.

Lemma initChatKit_frame_classList cfg fuel : frame classList (initChatKit cfg fuel).
Proof. unfold_script. solve_frame. Qed.

Lemma initChatKit_frame_localStorage cfg fuel : frame localStorage (initChatKit cfg fuel).
Proof. unfold_script. solve_frame. Qed.

Lemma initChatKit_frame_themeToggle cfg fuel : frame themeToggle (initChatKit cfg fuel).
Proof. unfold_script. solve_frame. Qed.

(** X7. No run of [initChatKit], however it ends, changes the document's
    class list, local storage or the theme toggle's listeners: the dark flag
    and the stored preference are as before. *)
Theorem X7_init_leaves_theme_state cfg env (fuel : nat) (w : World) :
  classList (initChatKit cfg fuel env w).2 = classList w /\
  localStorage (initChatKit cfg fuel env w).2 = localStorage w /\
  themeToggle (initChatKit cfg fuel env w).2 = themeToggle w /\
  dark (initChatKit cfg fuel env w).2 = dark w /\
  stored_theme (initChatKit cfg fuel env w).2 = stored_theme w.
Proof.
  unfold dark, stored_theme.
  rewrite (initChatKit_frame_classList cfg fuel env w),
    (initChatKit_frame_localStorage cfg fuel env w),
    (initChatKit_frame_themeToggle cfg fuel env w). done.
Qed.

(** After the wait, nothing in [initChatKit] moves the clock. *)
Lemma initChatKit_clock cfg env (fuel : nat) w :
  clock (initChatKit cfg fuel env w).2 = clock (waitForComponent fuel env w).2.
Proof.
  unfold initChatKit.
  rewrite frame_after_try_catch.
  2:{ unfold showError. solve_frame. }
  rewrite frame_after_bind; [reflexivity|].
  intros attempts.
  unfold createSession, fetch, showError, hideError,
    customElements_get, createElement, assign, updateChatkitTheme.
  solve_frame.
Qed.

(** X8. Whatever happens after the wait, a run of [initChatKit] spends
    exactly 100 time units per wait in timers and nothing else: 100 times
    the index of the first check that finds the component registered, and
    5000 when none of the 51 checks does. *)
Theorem X8_time_spent_waiting cfg env (fuel : nat) (w : World) :
  (50 < fuel)%nat ->
  exists n : Z,
    0 <= n <= 50 /\
    clock (initChatKit cfg fuel env w).2 = clock w + 100 * n /\
    (forall k, 0 <= k < n -> customElements_defined env (clock w + 100 * k) = false) /\
    (customElements_defined env (clock w + 100 * n) = true \/
     (n = 50 /\ never_registered env w)).
Proof.
  intros Hfuel. rewrite initChatKit_clock.
  destruct (wait_spec env fuel w Hfuel) as (n & Hn & Heq & Hnot & Hex).
  unfold maxAttempts in *. exists n. rewrite Heq. cbn [snd]. rewrite clock_advance.
  split; [done|]. split; [done|]. split; [done|].
  destruct (customElements_defined env (clock w + 100 * n)) eqn:Hd; [by left|].
  right. destruct Hex as [?| ->]; [done|]. split; [done|].
  intros k Hk. unfold maxAttempts in Hk.
  destruct (decide (k = 50)) as [->|Hne]; [done|]. apply Hnot. lia.
Qed.

Lemma X8_time_spent_waiting_witness :
  (50 < 51)%nat /\
  exists n : Z,
    0 <= n <= 50 /\
    clock (initChatKit sample_config 51 (env_with 250 reply_session) sample_page).2 =
      clock sample_page + 100 * n /\
    (forall k, 0 <= k < n ->
       customElements_defined (env_with 250 reply_session)
         (clock sample_page + 100 * k) = false) /\
    (customElements_defined (env_with 250 reply_session)
       (clock sample_page + 100 * n) = true \/
     (n = 50 /\ never_registered (env_with 250 reply_session) sample_page)).
Proof.
  split; [lia|].
  apply (X8_time_spent_waiting sample_config (env_with 250 reply_session) 51 sample_page).
  lia.
Defined.

(** ** Further properties: the initialization entry point *)

Lemma registered_not_never env w :
  registered_in_time env w -> never_registered env w -> False.
Proof. intros (k & Hk & Hdef) Hnever. rewrite Hnever in Hdef by done. discriminate. Qed.

Lemma app_singleton_neq {A} (l : list A) (x : A) : l ++ [x] <> l.
Proof.
  intros Heq. apply (f_equal length) in Heq. rewrite length_app in Heq.
  cbn [length] in Heq. lia.
Qed.

(** X9. A run of [initChatKit] issues exactly one request when the
    component is registered at one of the 51 checks, the last one (after the
    50th wait) included, and none otherwise. *)
Theorem X9_one_request_iff_registered cfg env (fuel : nat) (w : World) :
  (50 < fuel)%nat ->
  (requests (initChatKit cfg fuel env w).2 = requests w ++ [session_request cfg] <->
   registered_in_time env w) /\
  (requests (initChatKit cfg fuel env w).2 = requests w <-> never_registered env w) /\
  (customElements_defined env (clock w + 5000) = true ->
   requests (initChatKit cfg fuel env w).2 = requests w ++ [session_request cfg]).
Proof.
  intros Hfuel.
  assert (Hone : registered_in_time env w ->
            requests (initChatKit cfg fuel env w).2 = requests w ++ [session_request cfg]).
  { intros Hreg.
    destruct (initChatKit_paths cfg env w) as [Hnever|[[_ [e He]]|[_ [s Hs]]]].
    - destruct (registered_not_never env w Hreg Hnever).
    - destruct (initChatKit_session_error cfg env fuel w e) as (n & _ & ->); done.
    - destruct (initChatKit_mounted cfg env fuel w s) as (n & _ & ->); done. }
  assert (Hnone : never_registered env w ->
            requests (initChatKit cfg fuel env w).2 = requests w).
  { intros Hnever. rewrite initChatKit_timeout by done. reflexivity. }
  split; [|split].
  - split; [|exact Hone]. intros Heq.
    destruct (registered_or_never env w) as [Hreg|Hnever]; [exact Hreg|].
    rewrite (Hnone Hnever) in Heq. symmetry in Heq.
    destruct (app_singleton_neq _ _ Heq).
  - split; [|exact Hnone]. intros Heq.
    destruct (registered_or_never env w) as [Hreg|Hnever]; [|exact Hnever].
    rewrite (Hone Hreg) in Heq. destruct (app_singleton_neq _ _ Heq).
  - intros Hlast. apply Hone. exists 50. unfold maxAttempts. split; [lia|exact Hlast].
Qed.

Lemma X9_one_request_iff_registered_witness :
  (50 < 51)%nat /\
  customElements_defined (env_with 5000 reply_session) (clock sample_page + 5000) = true /\
  requests (initChatKit sample_config 51 (env_with 5000 reply_session) sample_page).2 =
    requests sample_page ++ [session_request sample_config].
Proof.
  split; [lia|]. split; [reflexivity|].
  refine (proj2 (proj2 (X9_one_request_iff_registered sample_config
    (env_with 5000 reply_session) 51 sample_page _)) eq_refl).
  lia.
Defined.



(** X11. After a run of [initChatKit] the error overlay is shown exactly
    when the run failed: it is hidden when the widget was mounted and shown
    when the component did not register or session creation failed.  A
    successful run leaves the text of an earlier message in place. *)
Theorem X11_overlay_shows_failure cfg env (fuel : nat) (w : World) :
  (50 < fuel)%nat ->
  (registered_in_time env w -> (exists s, (createSession cfg env w).1 = Ret s) ->
     errorOverlay (initChatKit cfg fuel env w).2 = (fun _ => "none") <$> errorOverlay w /\
     errorMessage (initChatKit cfg fuel env w).2 = errorMessage w) /\
  (never_registered env w \/ (exists e, (createSession cfg env w).1 = Throw e) ->
     errorOverlay (initChatKit cfg fuel env w).2 = (fun _ => "flex") <$> errorOverlay w).
Proof.
  intros Hfuel.
  destruct (initChatKit_paths cfg env w) as [Hnever|[[Hreg [e He]]|[Hreg [s Hs]]]].
  - rewrite initChatKit_timeout by done. split; [|done].
    intros Hreg. destruct (registered_not_never env w Hreg Hnever).
  - destruct (initChatKit_session_error cfg env fuel w e) as (n & _ & ->); try done.
    split; [|done]. intros _ [s Hs]. congruence.
  - destruct (initChatKit_mounted cfg env fuel w s) as (n & _ & ->); try done.
    split; [done|]. intros [Hnever|[e He]]; [|congruence].
    destruct (registered_not_never env w Hreg Hnever).
Qed.

Lemma X11_overlay_shows_failure_witness :
  (50 < 51)%nat /\
  errorOverlay
    (initChatKit sample_config 51 (env_with 0 reply_session)
       (initChatKit sample_config 51 (env_with 0 reply_error_X) sample_page).2).2 =
    Some "none" /\
  errorMessage
    (initChatKit sample_config 51 (env_with 0 reply_session)
       (initChatKit sample_config 51 (env_with 0 reply_error_X) sample_page).2).2 =
    Some "Failed to initialize ChatKit: X".
Proof.
  split; [lia|].
  refine (proj1 (X11_overlay_shows_failure sample_config (env_with 0 reply_session) 51
    (initChatKit sample_config 51 (env_with 0 reply_error_X) sample_page).2 _) _ _).
  - lia.
  - exists 0. split; [unfold maxAttempts; lia | reflexivity].
  - exists sample_session. reflexivity.
Defined.

(** X12. No run of [initChatKit] changes the retry control's [display].
    Its [onclick] is set to [initChatKit] exactly when session creation
    failed; when the component did not register, or the widget was mounted,
    the control is left as it was. *)
Theorem X12_retry_control cfg env (fuel : nat) (w : World) :
  (50 < fuel)%nat ->
  display <$> retryButton (initChatKit cfg fuel env w).2 = display <$> retryButton w /\
  (registered_in_time env w -> (exists e, (createSession cfg env w).1 = Throw e) ->
     onclick <$> retryButton (initChatKit cfg fuel env w).2 =
       (fun _ => Some H_initChatKit) <$> retryButton w) /\
  (never_registered env w \/ (exists s, (createSession cfg env w).1 = Ret s) ->
     retryButton (initChatKit cfg fuel env w).2 = retryButton w).
Proof.
  intros Hfuel.
  destruct (initChatKit_paths cfg env w) as [Hnever|[[Hreg [e He]]|[Hreg [s Hs]]]].
  - rewrite initChatKit_timeout by done. cbn [snd retryButton].
    split; [done|]. split; [|done].
    intros Hreg. destruct (registered_not_never env w Hreg Hnever).
  - destruct (initChatKit_session_error cfg env fuel w e) as (n & _ & ->); try done.
    cbn [snd retryButton]. destruct (retryButton w) as [b|]; cbn.
    + split; [done|]. split; [done|].
      intros [Hnever|[s Hs]]; [|congruence].
      destruct (registered_not_never env w Hreg Hnever).
    + split; [done|]. split; done.
  - destruct (initChatKit_mounted cfg env fuel w s) as (n & _ & ->); try done.
    cbn [snd retryButton]. split; [done|]. split; [|done].
    intros _ [e He]. congruence.
Qed.

Lemma X12_retry_control_witness :
  (50 < 51)%nat /\
  onclick <$>
    retryButton (initChatKit sample_config 51 (env_with 0 reply_error_X) sample_page).2 =
    Some (Some H_initChatKit).
Proof.
  split; [lia|].
  refine (proj1 (proj2 (X12_retry_control sample_config (env_with 0 reply_error_X) 51
    sample_page _)) _ _).
  - lia.
  - exists 0. split; [unfold maxAttempts; lia | reflexivity].
  - exists (mkError "Error" "X"). reflexivity.
Defined.

(** ** Further properties: session creation *)

(** X13. [createSession] returns a session exactly when the request got a
    reply with a success status whose body is JSON other than [null]; the
    session is that body.  In every other case it throws. *)
Theorem X13_session_returned_iff cfg env (w : World) :
  (forall session,
     (createSession cfg env w).1 = Ret session <->
     exists r, fetch_reply env (session_request cfg) = Resolved r /\
       ok r = true /\ json_body r = Parsed session /\ session <> JNull) /\
  ((exists session, (createSession cfg env w).1 = Ret session) \/
   (exists e, (createSession cfg env w).1 = Throw e)).
Proof.
  split.
  - intros session. run_createSession.
    destruct (fetch_reply env (session_request cfg)) as [e|r].
    { split; [discriminate | intros (r & [=] & _)]. }
    destruct (ok r) eqn:Hok; cbn [negb].
    + destruct (json_body r) as [e|v] eqn:Hbody.
      { split; [discriminate|]. intros (r' & [= <-] & _ & Hb & _). congruence. }
      destruct v; cbn [fst own_prop];
        (split;
         [ intros [= <-]; exists r; repeat split; congruence
         | intros (r' & [= <-] & _ & Hb & Hnn); congruence ]).
    + split.
      * destruct (json_body r) as [e|v]; [discriminate|]. destruct v; discriminate.
      * intros (r' & [= <-] & Hok' & _). congruence.
  - destruct (createSession cfg env w).1 as [s|e|] eqn:Hcs; [left|right|]; eauto.
    by destruct (createSession_total cfg env w).
Qed.

(** X14. A request that fails at the network level makes [createSession]
    throw that very failure; [initChatKit] then shows its message behind
    the prefix, arms the retry control and mounts nothing. *)
Theorem X14_network_failure cfg env (fuel : nat) (w : World) (e : Error) :
  (50 < fuel)%nat -> registered_in_time env w ->
  fetch_reply env (session_request cfg) = Rejected e ->
  (createSession cfg env w).1 = Throw e /\
  errorMessage (initChatKit cfg fuel env w).2 =
    (fun _ => "Failed to initialize ChatKit: " +:+ message e) <$> errorMessage w /\
  retryButton (initChatKit cfg fuel env w).2 =
    (fun b => mkButton (display b) (Some H_initChatKit)) <$> retryButton w /\
  chatkitContainer (initChatKit cfg fuel env w).2 = chatkitContainer w /\
  elements (initChatKit cfg fuel env w).2 = elements w.
Proof.
  intros Hfuel Hreg Hreply.
  assert (Hcs : (createSession cfg env w).1 = Throw e).
  { run_createSession. rewrite Hreply. reflexivity. }
  split; [exact Hcs|].
  destruct (initChatKit_session_error cfg env fuel w e Hfuel Hreg Hcs) as (n & _ & ->).
  done.
Qed.

Lemma X14_network_failure_witness :
  (50 < 51)%nat /\
  (createSession sample_config
     (env_with 0 (Rejected (mkError "TypeError" "Failed to fetch"))) sample_page).1 =
    Throw (mkError "TypeError" "Failed to fetch") /\
  errorMessage
    (initChatKit sample_config 51
       (env_with 0 (Rejected (mkError "TypeError" "Failed to fetch"))) sample_page).2 =
    (fun _ => "Failed to initialize ChatKit: " +:+
              message (mkError "TypeError" "Failed to fetch")) <$> errorMessage sample_page /\
  retryButton
    (initChatKit sample_config 51
       (env_with 0 (Rejected (mkError "TypeError" "Failed to fetch"))) sample_page).2 =
    (fun b => mkButton (display b) (Some H_initChatKit)) <$> retryButton sample_page /\
  chatkitContainer
    (initChatKit sample_config 51
       (env_with 0 (Rejected (mkError "TypeError" "Failed to fetch"))) sample_page).2 =
    chatkitContainer sample_page /\
  elements
    (initChatKit sample_config 51
       (env_with 0 (Rejected (mkError "TypeError" "Failed to fetch"))) sample_page).2 =
    elements sample_page.
Proof.
  split; [lia|].
  refine (X14_network_failure sample_config
    (env_with 0 (Rejected (mkError "TypeError" "Failed to fetch"))) 51 sample_page
    (mkError "TypeError" "Failed to fetch") _ _ eq_refl).
  - lia.
  - exists 0. split; [unfold maxAttempts; lia | reflexivity].
Defined.



(** X16. A reply with a success status is still a failure when its body
    cannot be used: a body that is not JSON makes [createSession] throw the
    parser's error, and a [null] body makes it throw the [TypeError] of
    reading [id] from [null]. *)
Theorem X16_unusable_success_body cfg env (w : World) (r : Response) :
  fetch_reply env (session_request cfg) = Resolved r -> ok r = true ->
  (forall e, json_body r = Unparseable e -> (createSession cfg env w).1 = Throw e) /\
  (json_body r = Parsed JNull ->
     (createSession cfg env w).1 =
       Throw (mkError "TypeError" (null_read_message env "id"))).
Proof.
  intros Hreply Hok. run_createSession. rewrite Hreply, Hok. cbn [negb].
  split.
  - intros e ->. reflexivity.
  - intros ->. reflexivity.
Qed.

Lemma X16_unusable_success_body_witness :
  (createSession sample_config
     (env_with 0 (Resolved (mkResponse 200 (Parsed JNull)))) sample_page).1 =
    Throw (mkError "TypeError" (v8_null_read "id")) /\
  (createSession sample_config
     (env_with 0 (Resolved (mkResponse 200
        (Unparseable (mkError "SyntaxError" "Unexpected end of JSON input")))))
     sample_page).1 =
    Throw (mkError "SyntaxError" "Unexpected end of JSON input").
Proof.
  split.
  - exact (proj2 (X16_unusable_success_body sample_config
      (env_with 0 (Resolved (mkResponse 200 (Parsed JNull)))) sample_page
      (mkResponse 200 (Parsed JNull)) eq_refl eq_refl) eq_refl).
  - exact (proj1 (X16_unusable_success_body sample_config
      (env_with 0 (Resolved (mkResponse 200
         (Unparseable (mkError "SyntaxError" "Unexpected end of JSON input")))))
      sample_page
      (mkResponse 200 (Unparseable (mkError "SyntaxError" "Unexpected end of JSON input")))
      eq_refl eq_refl) _ eq_refl).
Defined.

(** ** Further properties: mounting, start-up and restart *)

(** X17. On a page without the container, a successful run still creates
    and configures the element and keeps the reference to it, mounts it
    nowhere, and shows no error: the overlay is hidden and the message and
    retry control are untouched. *)
Theorem X17_missing_container cfg env (fuel : nat) (w : World) (session : json) :
  (50 < fuel)%nat -> registered_in_time env w ->
  (createSession cfg env w).1 = Ret session ->
  chatkitContainer w = None ->
  chatkitContainer (initChatKit cfg fuel env w).2 = None /\
  elements (initChatKit cfg fuel env w).2 =
    elements w ++
      [Element.mk (Some (own_prop session "client_secret")) (Some (placeholder cfg))
         (Some (greeting cfg)) (Some (theme_of (dark w)))] /\
  chatkitElement (initChatKit cfg fuel env w).2 = Some (length (elements w)) /\
  errorOverlay (initChatKit cfg fuel env w).2 = (fun _ => "none") <$> errorOverlay w /\
  errorMessage (initChatKit cfg fuel env w).2 = errorMessage w /\
  retryButton (initChatKit cfg fuel env w).2 = retryButton w.
Proof.
  intros Hfuel Hreg Hret Hc.
  destruct (initChatKit_mounted cfg env fuel w session Hfuel Hreg Hret) as (n & _ & ->).
  cbn [snd chatkitContainer elements chatkitElement errorOverlay errorMessage
       retryButton]. rewrite Hc. done.
Qed.

Lemma X17_missing_container_witness :
  (50 < 51)%nat /\
  chatkitContainer
    (initChatKit sample_config 51 (env_with 0 reply_session) bare_page).2 = None /\
  elements (initChatKit sample_config 51 (env_with 0 reply_session) bare_page).2 =
    elements bare_page ++
      [Element.mk (Some (own_prop sample_session "client_secret"))
         (Some (placeholder sample_config)) (Some (greeting sample_config))
         (Some (theme_of (dark bare_page)))] /\
  chatkitElement (initChatKit sample_config 51 (env_with 0 reply_session) bare_page).2 =
    Some (length (elements bare_page)) /\
  errorOverlay (initChatKit sample_config 51 (env_with 0 reply_session) bare_page).2 =
    (fun _ => "none") <$> errorOverlay bare_page /\
  errorMessage (initChatKit sample_config 51 (env_with 0 reply_session) bare_page).2 =
    errorMessage bare_page /\
  retryButton (initChatKit sample_config 51 (env_with 0 reply_session) bare_page).2 =
    retryButton bare_page.
Proof.
  split; [lia|].
  refine (X17_missing_container sample_config (env_with 0 reply_session) 51 bare_page
            sample_session _ _ eq_refl eq_refl).
  - lia.
  - exists 0. split; [unfold maxAttempts; lia | reflexivity].
Defined.

Lemma startup_run cfg (fuel : nat) env w :
  startup cfg fuel env w = initChatKit cfg fuel env (initializeTheme env w).2.
Proof.
  unfold startup.
  rewrite (bind_Ret _ _ env w tt (initializeTheme env w).2); [reflexivity|].
  rewrite initializeTheme_run. reflexivity.
Qed.

Lemma registered_in_time_clock env w w' :
  clock w' = clock w -> registered_in_time env w -> registered_in_time env w'.
Proof. intros Hc (k & Hk & Hdef). exists k. rewrite Hc. done. Qed.

(** X18. At start-up the widget is mounted with the theme that
    [initializeTheme] has just decided: its theme agrees with the dark flag
    of the page after start-up, so a visitor whose stored preference is
    "dark" gets a dark widget whatever the OS prefers, and one with nothing
    stored on a page without the dark class gets the OS scheme. *)
Theorem X18_startup_mounts_with_decided_theme cfg env (fuel : nat) (w : World)
    (session : json) :
  (50 < fuel)%nat -> registered_in_time env w ->
  (createSession cfg env w).1 = Ret session ->
  exists el,
    elements (startup cfg fuel env w).2 !! length (elements w) = Some el /\
    chatkitElement (startup cfg fuel env w).2 = Some (length (elements w)) /\
    Element.sessionToken el = Some (own_prop session "client_secret") /\
    Element.theme el = Some (theme_of (dark (startup cfg fuel env w).2)) /\
    (stored_theme w = Some "dark" -> Element.theme el = Some "dark") /\
    (stored_theme w = None -> dark w = false ->
       Element.theme el = Some (theme_of (prefers_dark env))).
Proof.
  intros Hfuel Hreg Hret. rewrite startup_run.
  set (w1 := (initializeTheme env w).2).
  assert (Hclock : clock w1 = clock w) by (unfold w1; rewrite initializeTheme_run; done).
  assert (Hels : elements w1 = elements w) by (unfold w1; rewrite initializeTheme_run; done).
  assert (Hret1 : (createSession cfg env w1).1 = Ret session).
  { rewrite (createSession_outcome cfg env w1 w). exact Hret. }
  pose proof (registered_in_time_clock env w w1 Hclock Hreg) as Hreg1.
  destruct (initChatKit_mounted cfg env fuel w1 session Hfuel Hreg1 Hret1) as (n & _ & ->).
  unfold dark at 1. cbn [snd elements chatkitElement classList]. rewrite Hels.
  eexists. split.
  { rewrite lookup_app_r by lia. rewrite Nat.sub_diag. reflexivity. }
  cbn [Element.sessionToken Element.theme].
  split; [done|]. split; [done|]. split; [done|].
  destruct (initializeTheme_dark env w) as (Hdark & Hnone).
  fold (dark w1). fold (theme_of (dark w1)). split.
  - intros Hst. unfold w1. rewrite (Hdark Hst). reflexivity.
  - intros Hst Hd. unfold w1. rewrite (Hnone Hst), Hd. reflexivity.
Qed.

Lemma X18_startup_mounts_with_decided_theme_witness :
  (50 < 51)%nat /\
  exists el,
    elements (startup sample_config 51 (env_with 100 reply_session) returning_dark_page).2
      !! length (elements returning_dark_page) = Some el /\
    chatkitElement
      (startup sample_config 51 (env_with 100 reply_session) returning_dark_page).2 =
      Some (length (elements returning_dark_page)) /\
    Element.sessionToken el = Some (own_prop sample_session "client_secret") /\
    Element.theme el =
      Some (theme_of (dark
        (startup sample_config 51 (env_with 100 reply_session) returning_dark_page).2)) /\
    (stored_theme returning_dark_page = Some "dark" -> Element.theme el = Some "dark") /\
    (stored_theme returning_dark_page = None -> dark returning_dark_page = false ->
       Element.theme el = Some (theme_of (prefers_dark (env_with 100 reply_session)))).
Proof.
  split; [lia|].
  refine (X18_startup_mounts_with_decided_theme sample_config
            (env_with 100 reply_session) 51 returning_dark_page sample_session
            _ _ eq_refl).
  - lia.
  - exists 1. split; [unfold maxAttempts; lia | reflexivity].
Defined.

(** X19. A restart after a failed session creation runs the whole sequence
    again: when the second attempt succeeds, the overlay is hidden, the
    widget is mounted as the container's only child, the log holds the two
    requests, the retry control stays armed and the earlier message stays
    in the hidden overlay. *)
Theorem X19_restart_after_failure cfg env1 env2 (fuel : nat) (w : World)
    (e : Error) (session : json) :
  (50 < fuel)%nat ->
  registered_in_time env1 w -> (createSession cfg env1 w).1 = Throw e ->
  registered_in_time env2 (retryChatKit cfg fuel env1 w).2 ->
  (createSession cfg env2 w).1 = Ret session ->
  let w2 := (retryChatKit cfg fuel env2 (retryChatKit cfg fuel env1 w).2).2 in
  errorOverlay w2 = (fun _ => "none") <$> errorOverlay w /\
  errorMessage w2 =
    (fun _ => "Failed to initialize ChatKit: " +:+ message e) <$> errorMessage w /\
  retryButton w2 =
    (fun b => mkButton (display b) (Some H_initChatKit)) <$> retryButton w /\
  chatkitContainer w2 =
    (fun _ => [N_chatkit (length (elements w))]) <$> chatkitContainer w /\
  chatkitElement w2 = Some (length (elements w)) /\
  requests w2 = requests w ++ [session_request cfg; session_request cfg].
Proof.
  intros Hfuel Hreg1 Hthrow Hreg2 Hret. unfold retryChatKit in *.
  destruct (initChatKit_session_error cfg env1 fuel w e Hfuel Hreg1 Hthrow)
    as (n1 & _ & Hrun1).
  set (w1 := (initChatKit cfg fuel env1 w).2) in *.
  assert (Hret1 : (createSession cfg env2 w1).1 = Ret session).
  { rewrite (createSession_outcome cfg env2 w1 w). exact Hret. }
  destruct (initChatKit_mounted cfg env2 fuel w1 session Hfuel Hreg2 Hret1)
    as (n2 & _ & Hrun2).
  cbv zeta. rewrite Hrun2. unfold w1. rewrite Hrun1.
  cbn [snd errorOverlay errorMessage retryButton chatkitContainer chatkitElement
       requests elements].
  rewrite <- app_assoc. cbn [app].
  destruct (errorOverlay w), (chatkitContainer w); done.
Qed.

Lemma X19_restart_after_failure_witness :
  (50 < 51)%nat /\
  let w2 :=
    (retryChatKit sample_config 51 (env_with 0 reply_session)
       (retryChatKit sample_config 51 (env_with 0 reply_error_X) sample_page).2).2 in
  errorOverlay w2 = (fun _ => "none") <$> errorOverlay sample_page /\
  errorMessage w2 =
    (fun _ => "Failed to initialize ChatKit: " +:+ message (mkError "Error" "X"))
      <$> errorMessage sample_page /\
  retryButton w2 =
    (fun b => mkButton (display b) (Some H_initChatKit)) <$> retryButton sample_page /\
  chatkitContainer w2 =
    (fun _ => [N_chatkit (length (elements sample_page))])
      <$> chatkitContainer sample_page /\
  chatkitElement w2 = Some (length (elements sample_page)) /\
  requests w2 =
    requests sample_page ++ [session_request sample_config; session_request sample_config].
Proof.
  split; [lia|].
  refine (X19_restart_after_failure sample_config (env_with 0 reply_error_X)
            (env_with 0 reply_session) 51 sample_page (mkError "Error" "X")
            sample_session _ _ eq_refl _ eq_refl).
  - lia.
  - exists 0. split; [unfold maxAttempts; lia | reflexivity].
  - exists 0. split; [unfold maxAttempts; lia | reflexivity].
Defined.

Lemma contains_remove_other token other l :
  other <> token -> contains other (remove token l) = contains other l.
Proof.
  intros Hne. unfold contains, remove. induction l as [|t l IH]; [reflexivity|].
  cbn [List.filter existsb]. destruct (String.eqb token t) eqn:Heq; cbn [negb].
  - apply String.eqb_eq in Heq. subst t.
    apply String.eqb_neq in Hne. rewrite Hne. exact IH.
  - cbn [existsb]. rewrite IH. reflexivity.
Qed.

Lemma contains_snoc_other token other l :
  other <> token -> contains other (l ++ [token]) = contains other l.
Proof.
  intros Hne. unfold contains. rewrite existsb_app. cbn [existsb].
  apply String.eqb_neq in Hne. rewrite Hne. by rewrite !orb_false_r.
Qed.

(** X20. The theme toggle flips the "dark" class and no other: every other
    class of the document element is present after the click exactly when
    it was before. *)
Theorem X20_toggle_leaves_other_classes env (w : World) (token : string) :
  token <> "dark" ->
  contains token (classList (toggleTheme env w).2) = contains token (classList w) /\
  dark (toggleTheme env w).2 = negb (dark w).
Proof.
  intros Hne. split; [|apply dark_toggleTheme].
  rewrite toggleTheme_run. cbn [snd classList].
  destruct (dark w); [by apply contains_remove_other | by apply contains_snoc_other].
Qed.

Lemma X20_toggle_leaves_other_classes_witness :
  contains "no-js"
    (classList (toggleTheme env_never
       (mkWorld 0 ["dark"; "no-js"] ∅ [] None None None None None None [])).2) =
    contains "no-js"
      (classList (mkWorld 0 ["dark"; "no-js"] ∅ [] None None None None None None [])) /\
  dark (toggleTheme env_never
          (mkWorld 0 ["dark"; "no-js"] ∅ [] None None None None None None [])).2 =
    negb (dark (mkWorld 0 ["dark"; "no-js"] ∅ [] None None None None None None [])).
Proof.
  apply (X20_toggle_leaves_other_classes env_never
           (mkWorld 0 ["dark"; "no-js"] ∅ [] None None None None None None []) "no-js").
  discriminate.
Defined.
